(** * Short_Cutteer: the Windows hook wrappers, the key-event constructors
      and the command panel, embedded in Rocq.

    The development follows the three source units:
    - [Win]: the user32 wrappers of the hook package (types, constants,
      [LoadDLLs], [SetWindowsHookExW], [UnhookWindowsHookEx], [GetMessageW],
      [SendInput], ...);
    - [Keys]: hookCommonInputKey.go, the constructors of modifier and arrow
      key events;
    - [Panel]: the script of the management page ([sendCommand],
      [sendNewCommand], [sendDeleteCommand], [validateModal], ...).
    Two further modules, [Channel] and [Matcher], hold the parts of the engine
    that the specification describes and the sources do not contain. [Api]
    and [Session] put the wrappers and the page's handlers in sequence. *)

From Stdlib Require Import ZArith List String Ascii Bool Lia.
Import ListNotations.

Local Open Scope string_scope.
Local Open Scope Z_scope.

(* ===================================================================== *)
(** ** The Go side: user32 wrappers *)
(* ===================================================================== *)

Module Win.

(** Machine integers. The wrappers only convert between [uint], [int] and
    [uintptr]; on the target (windows/amd64) all three are 64 bits wide. A
    value of an unsigned type is a [Z] in [0, 2^64); a conversion to an
    unsigned type is reduction modulo [2^64], a conversion to a signed type
    the two's complement reading. *)
Definition word_bits : Z := 64.

Definition to_unsigned (bits z : Z) : Z := z mod 2 ^ bits.

Definition to_signed (bits z : Z) : Z :=
  let u := to_unsigned bits z in
  if u <? 2 ^ (bits - 1) then u else u - 2 ^ bits.

Definition uintptr (z : Z) : Z := to_unsigned word_bits z.
Definition uint (z : Z) : Z := to_unsigned word_bits z.

(** The named integer types of the source. *)
Definition SHORT (z : Z) : Z := to_signed 16 z.
Definition DWORD (z : Z) : Z := to_unsigned 32 z.
Definition LRESULT (z : Z) : Z := to_signed 64 z.
Definition HHOOK (z : Z) : Z := uintptr z.

(** [HOOKPROC func(int, WPARAM, LPARAM) LRESULT]. *)
Definition HOOKPROC : Type := Z -> Z -> Z -> Z.

(** Simulated keyboard event. *)
Record KEYBDINPUT : Type := {
  WVk : Z;
  WScan : Z;
  DwFlags : Z;
  Time : Z;
  DwExtraInfo : Z
}.

(** Input events. *)
Record tagINPUT : Type := {
  inputType : Z;
  ki : KEYBDINPUT;
  padding : Z
}.

(** [LPINPUT tagINPUT]: despite its name the type is the structure itself,
    not a pointer to it and not a slice. *)
Definition LPINPUT : Type := tagINPUT.

(** Low-level keyboard input event. *)
Record tagKBDLLHOOKSTRUCT : Type := {
  vkCode : Z;
  scanCode : Z;
  flags : Z;
  time : Z;
  dwExtraInfo : Z
}.

(** Constants. *)
Definition WH_KEYBOARD_LL : Z := 13.

Definition VK_BACK : Z := 0x08.
Definition VK_TAB : Z := 0x09.
Definition VK_RETURN : Z := 0x0D.
Definition VK_SHIFT : Z := 0x10.
Definition VK_CONTROL : Z := 0x11.
Definition VK_MENU : Z := 0x12.
Definition VK_CAPITAL : Z := 0x14.
Definition VK_SPACE : Z := 0x20.
Definition VK_END : Z := 0x23.
Definition VK_HOME : Z := 0x24.
Definition VK_LEFT : Z := 0x25.
Definition VK_UP : Z := 0x26.
Definition VK_RIGHT : Z := 0x27.
Definition VK_DOWN : Z := 0x28.
Definition VK_OEM_1 : Z := 0xBA.
Definition VK_OEM_4 : Z := 0xDB.
Definition VK_OEM_6 : Z := 0xDD.
Definition VK_OEM_7 : Z := 0xDE.

Definition INPUT_MOUSE : Z := 0.
Definition INPUT_KEYBOARD : Z := 1.
Definition INPUT_HARDWARE : Z := 2.

Definition KEYEVENTF_EXTENDEDKEY : Z := 0x0001.
Definition KEYEVENTF_KEYUP : Z := 0x0002.
Definition KEYEVENTF_SCANCODE : Z := 0x0008.
Definition KEYEVENTF_UNICODE : Z := 0x0004.

(** *** The boundary with the operating system *)

(** A lazily resolved procedure of user32.dll, known by its name. *)
Record LazyProc : Type := NewProc { Name : string }.

Definition winDLLUser32 : string := "user32.dll".

Definition winDLLUser32_ProcCallNextHookEx : LazyProc := NewProc "CallNextHookEx".
Definition winDLLUser32_ProcSetWindowsHookExW : LazyProc := NewProc "SetWindowsHookExW".
Definition winDLLUser32_ProcUnhookWindowsHookEx : LazyProc := NewProc "UnhookWindowsHookEx".
Definition winDLLUser32_GetMessageW : LazyProc := NewProc "GetMessageW".
Definition winDLLUser32_SendInput : LazyProc := NewProc "SendInput".
Definition winDLLUser32_GetKeyState : LazyProc := NewProc "GetKeyState".

(** An argument of a system call is a machine word. Two kinds of word are
    addresses, and the model keeps what they refer to:
    - [InputsAt mem]: the address of memory of the caller that holds exactly
      the structures [mem], one after the other
      ([unsafe.Pointer(&x)] for a variable [x] gives [InputsAt [x]]);
    - [Callback f]: [windows.NewCallback(f)]. *)
Inductive arg : Type :=
| Word (v : Z)
| InputsAt (mem : list tagINPUT)
| Callback (lpfn : HOOKPROC).

Record Syscall : Type := {
  proc : LazyProc;
  args : list arg
}.

(** What [LazyProc.Call] hands back: [r1], [r2] and the thread's last error
    code (an [Errno], never [nil]). *)
Record Reply : Type := {
  r1 : Z;
  r2 : Z;
  lastErr : Z
}.

(** The operating system as the wrappers see it: the outcome of loading a
    library ([None] for [nil], [Some text] for an error whose [Error()] is
    [text]) and the reply to each system call, which may depend on the calls
    made before. *)
Record OS : Type := {
  load : string -> option string;
  reply : list Syscall -> Syscall -> Reply
}.

(** One line written by [log.Println(prefix, err)]. *)
Record LogLine : Type := {
  prefix : string;
  err : Z
}.

(** The observable state of the process: the system calls made so far and
    the lines logged so far, both oldest first. *)
Record World : Type := {
  calls : list Syscall;
  logged : list LogLine
}.

(** A Go function either returns or panics. *)
Inductive outcome (A : Type) : Type :=
| Returns (a : A) (w : World)
| Panics (msg : string) (w : World).
Arguments Returns {A} a w.
Arguments Panics {A} msg w.

Definition M (A : Type) : Type := World -> outcome A.

Definition ret {A} (a : A) : M A := fun w => Returns a w.

Definition bind {A B} (m : M A) (k : A -> M B) : M B :=
  fun w =>
    match m w with
    | Returns a w' => k a w'
    | Panics msg w' => Panics msg w'
    end.

Definition panic {A} (msg : string) : M A := fun w => Panics msg w.

Declare Scope go_scope.
Delimit Scope go_scope with go.
Notation "x <- m ;; k" := (bind m (fun x => k))
  (at level 100, m at next level, right associativity) : go_scope.
Notation "m ;;; k" := (bind m (fun _ => k))
  (at level 100, right associativity) : go_scope.
Local Open Scope go_scope.

Definition log_Println (prefix : string) (e : Z) : M unit :=
  fun w => Returns tt {| calls := calls w; logged := logged w ++ [{| prefix := prefix; err := e |}] |}.

Section Wrappers.

Variable os : OS.

(** [p.Call(a...)] on a procedure that resolves: the call is recorded and the
    system's reply comes back, its two results as [uintptr]s. *)
Definition Call (p : LazyProc) (a : list arg) : M Reply :=
  fun w =>
    let c := {| proc := p; args := a |} in
    let r := reply os (calls w) c in
    Returns {| r1 := uintptr (r1 r); r2 := uintptr (r2 r); lastErr := lastErr r |}
            {| calls := calls w ++ [c]; logged := logged w |}.

(** [winDLLUser32.Load()]. *)
Definition Load (dll : string) : M (option string) :=
  fun w => Returns (load os dll) w.

(** LoadDLLs loads all required DLLs and panic if error(s) occured. *)
Definition LoadDLLs : M unit :=
  e <- Load winDLLUser32 ;;
  match e with
  | Some text => panic ("LoadDLL error" ++ text)
  | None => ret tt
  end.

(** Pass the hook information to the next hook procedure. *)
Definition CallNextHookEx (hhk nCode wParam lParam : Z) : M Z :=
  r <- Call winDLLUser32_ProcCallNextHookEx
            [Word (uintptr hhk); Word (uintptr nCode); Word (uintptr wParam); Word (uintptr lParam)] ;;
  ret (LRESULT (r1 r)).

(** Install hook procedure into a hook chain. *)
Definition SetWindowsHookExW (idHook : Z) (lpfn : HOOKPROC) (hmod dwThreadID : Z) : M Z :=
  r <- Call winDLLUser32_ProcSetWindowsHookExW
            [Word (uintptr idHook); Callback lpfn; Word (uintptr hmod); Word (uintptr dwThreadID)] ;;
  ret (HHOOK (r1 r)).

(** Remove a hook procedure installed in a hook chain. *)
Definition UnhookWindowsHookEx (hhk : Z) : M bool :=
  r <- Call winDLLUser32_ProcUnhookWindowsHookEx [Word (uintptr hhk)] ;;
  if r1 r =? 0 then
    (log_Println "UnhookWindowsHookEx error:" (lastErr r) ;;;
     ret false)
  else ret true.

(** Retrieves a message. *)
Definition GetMessageW (lpMsg hWnd wMsgFilterMin wMsgFilterMax : Z) : M bool :=
  r <- Call winDLLUser32_GetMessageW
            [Word (uintptr lpMsg); Word (uintptr hWnd); Word (uintptr wMsgFilterMin); Word (uintptr wMsgFilterMax)] ;;
  if r1 r =? 0 then
    (log_Println "GetMessageW error:" (lastErr r) ;;;
     ret false)
  else ret true.

(** Simulate keyboard inputs to the operating system. [pInputs] is received
    by value; the address handed to the system is that of this one copy. *)
Definition SendInput (cInputs : Z) (pInputs : LPINPUT) (cbSize : Z) : M Z :=
  r <- Call winDLLUser32_SendInput
            [Word (uintptr cInputs); InputsAt [pInputs]; Word (uintptr cbSize)] ;;
  if r1 r =? 0 then
    (log_Println "SendInput error:" (lastErr r) ;;;
     ret 0)
  else ret (uint (r1 r)).

(** Retrieves the status of the specified virtual key. *)
Definition GetKeyState (nVirtKey : Z) : M Z :=
  r <- Call winDLLUser32_GetKeyState [Word (uintptr nVirtKey)] ;;
  ret (SHORT (r1 r)).

End Wrappers.

(** Reading an outcome. *)
Definition returned {A} (o : outcome A) : option A :=
  match o with Returns a _ => Some a | Panics _ _ => None end.

Definition panicked {A} (o : outcome A) : bool :=
  match o with Returns _ _ => false | Panics _ _ => true end.

Definition world_of {A} (o : outcome A) : World :=
  match o with Returns _ w => w | Panics _ w => w end.

(** The calls and the log lines an execution added to those of [w]. *)
Definition new_calls {A} (w : World) (o : outcome A) : list Syscall :=
  skipn (List.length (calls w)) (calls (world_of o)).

Definition new_lines {A} (w : World) (o : outcome A) : list LogLine :=
  skipn (List.length (logged w)) (logged (world_of o)).

(** The first result of the system's reply to call [c] made in world [w],
    as the wrapper receives it. *)
Definition result_of (os : OS) (w : World) (c : Syscall) : Z :=
  uintptr (r1 (reply os (calls w) c)).

Definition error_of (os : OS) (w : World) (c : Syscall) : Z :=
  lastErr (reply os (calls w) c).

(** The call record of each wrapper, as the wrapper passes it to [Call]. *)
Definition UnhookWindowsHookEx_call (hhk : Z) : Syscall :=
  {| proc := winDLLUser32_ProcUnhookWindowsHookEx; args := [Word (uintptr hhk)] |}.

Definition GetMessageW_call (lpMsg hWnd wMsgFilterMin wMsgFilterMax : Z) : Syscall :=
  {| proc := winDLLUser32_GetMessageW;
     args := [Word (uintptr lpMsg); Word (uintptr hWnd);
              Word (uintptr wMsgFilterMin); Word (uintptr wMsgFilterMax)] |}.

Definition SendInput_call (cInputs : Z) (pInputs : LPINPUT) (cbSize : Z) : Syscall :=
  {| proc := winDLLUser32_SendInput;
     args := [Word (uintptr cInputs); InputsAt [pInputs]; Word (uintptr cbSize)] |}.

Definition SetWindowsHookExW_call (idHook : Z) (lpfn : HOOKPROC) (hmod dwThreadID : Z) : Syscall :=
  {| proc := winDLLUser32_ProcSetWindowsHookExW;
     args := [Word (uintptr idHook); Callback lpfn; Word (uintptr hmod); Word (uintptr dwThreadID)] |}.

Definition GetKeyState_call (nVirtKey : Z) : Syscall :=
  {| proc := winDLLUser32_GetKeyState; args := [Word (uintptr nVirtKey)] |}.

Definition CallNextHookEx_call (hhk nCode wParam lParam : Z) : Syscall :=
  {| proc := winDLLUser32_ProcCallNextHookEx;
     args := [Word (uintptr hhk); Word (uintptr nCode); Word (uintptr wParam); Word (uintptr lParam)] |}.

(** Reading a call to the system's SendInput(cInputs, pInputs, cbSize): the
    number of structures it announces, and the number of structures that the
    caller placed at the address it passes. *)
Definition announced_count (c : Syscall) : Z :=
  match args c with
  | Word n :: _ => n
  | _ => 0
  end.

Definition structures_at_address (c : Syscall) : Z :=
  match args c with
  | [_; InputsAt mem; _] => Z.of_nat (List.length mem)
  | _ => 0
  end.

(** A world in which nothing has happened yet. *)
Definition fresh : World := {| calls := []; logged := [] |}.

End Win.

(* ===================================================================== *)
(** ** hookCommonInputKey.go: key-event constructors *)
(* ===================================================================== *)

Module Keys.

(** Modelled from the spec: the declaration of [TagINPUT], the input
    structure as the hook package exports it, is missing from the sources.
    By section 6 an input structure carries its type, the virtual key and
    the flags; the constructors below use the fields [InputType] and [Ki]
    (with [Ki.WVk] and [Ki.DwFlags]), and the layout is the one of
    [Win.tagINPUT], with exported field names. *)
Record TagINPUT : Type := {
  InputType : Z;
  Ki : Win.KEYBDINPUT;
  Padding : Z
}.

(** Go's zero value of [KEYBDINPUT]. *)
Definition zero_KEYBDINPUT : Win.KEYBDINPUT :=
  {| Win.WVk := 0; Win.WScan := 0; Win.DwFlags := 0; Win.Time := 0; Win.DwExtraInfo := 0 |}.

(** The two assignments the constructors make: [t.Ki.WVk = v] and
    [t.Ki.DwFlags = f]; every other field keeps its value. *)
Definition set_WVk (v : Z) (t : TagINPUT) : TagINPUT :=
  {| InputType := InputType t;
     Ki := {| Win.WVk := v;
              Win.WScan := Win.WScan (Ki t);
              Win.DwFlags := Win.DwFlags (Ki t);
              Win.Time := Win.Time (Ki t);
              Win.DwExtraInfo := Win.DwExtraInfo (Ki t) |};
     Padding := Padding t |}.

Definition set_DwFlags (f : Z) (t : TagINPUT) : TagINPUT :=
  {| InputType := InputType t;
     Ki := {| Win.WVk := Win.WVk (Ki t);
              Win.WScan := Win.WScan (Ki t);
              Win.DwFlags := f;
              Win.Time := Win.Time (Ki t);
              Win.DwExtraInfo := Win.DwExtraInfo (Ki t) |};
     Padding := Padding t |}.

(** Create base tag input keyboard template. *)
Definition tagInputKeyboard : TagINPUT :=
  {| InputType := Win.INPUT_KEYBOARD; Ki := zero_KEYBDINPUT; Padding := 0 |}.

(** Create tag input for SHIFT key down. *)
Definition tagInputShiftDown : TagINPUT :=
  let tagInput := tagInputKeyboard in
  set_WVk Win.VK_SHIFT tagInput.

(** Create tag input for SHIFT key up by adding key event flag with SHIFT
    key down. *)
Definition tagInputShiftUp : TagINPUT :=
  let tagInput := tagInputShiftDown in
  set_DwFlags Win.KEYEVENTF_KEYUP tagInput.

(** Create tag input for CTRL key down. *)
Definition tagInputCtrlDown : TagINPUT :=
  let tagInput := tagInputKeyboard in
  set_WVk Win.VK_CONTROL tagInput.

(** Create tag input for CTRL key up. *)
Definition tagInputCtrlUp : TagINPUT :=
  let tagInput := tagInputCtrlDown in
  set_DwFlags Win.KEYEVENTF_KEYUP tagInput.

(** Create tag input for ALT key down. *)
Definition tagInputAltDown : TagINPUT :=
  let tagInput := tagInputKeyboard in
  set_WVk Win.VK_MENU tagInput.

(** Create tag input for ALT key up. *)
Definition tagInputAltUp : TagINPUT :=
  let tagInput := tagInputAltDown in
  set_DwFlags Win.KEYEVENTF_KEYUP tagInput.

(** Create tag input for LEFT ARROW key down. *)
Definition tagInputLeftArrowDown : TagINPUT :=
  let tagInput := tagInputKeyboard in
  set_WVk Win.VK_LEFT tagInput.

(** Create tag input for UP ARROW key down. *)
Definition tagInputUpArrowDown : TagINPUT :=
  let tagInput := tagInputKeyboard in
  set_WVk Win.VK_UP tagInput.

(** Create tag input for RIGHT ARROW key down. *)
Definition tagInputRightArrowDown : TagINPUT :=
  let tagInput := tagInputKeyboard in
  set_WVk Win.VK_RIGHT tagInput.

(** Create tag input for DOWN ARROW key down. *)
Definition tagInputDownnArrowDown : TagINPUT :=
  let tagInput := tagInputKeyboard in
  set_WVk Win.VK_DOWN tagInput.

(** The three modifier keys, each with its virtual key code and its pair of
    constructors. *)
Inductive modifier : Type := Shift | Ctrl | Alt.

Definition vk_of (m : modifier) : Z :=
  match m with
  | Shift => Win.VK_SHIFT
  | Ctrl => Win.VK_CONTROL
  | Alt => Win.VK_MENU
  end.

Definition key_down (m : modifier) : TagINPUT :=
  match m with
  | Shift => tagInputShiftDown
  | Ctrl => tagInputCtrlDown
  | Alt => tagInputAltDown
  end.

Definition key_up (m : modifier) : TagINPUT :=
  match m with
  | Shift => tagInputShiftUp
  | Ctrl => tagInputCtrlUp
  | Alt => tagInputAltUp
  end.

(** Whether a flags word carries the key-up bit. *)
Definition has_keyup_flag (f : Z) : bool :=
  negb (Z.land f Win.KEYEVENTF_KEYUP =? 0).

End Keys.

(* ===================================================================== *)
(** ** The management page: the script that sends registry mutations *)
(* ===================================================================== *)

Module Panel.

Local Open Scope nat_scope.
Local Open Scope list_scope.

(** *** [JSON.stringify] on an object of string properties

    A JavaScript string is modelled by a [string] whose characters are its
    code units; the model covers the code units below 256, so no surrogate
    occurs. *)

Definition dquote : ascii := "034"%char.
Definition backslash : ascii := "092"%char.

Definition hex_digit (n : nat) : ascii :=
  nth n ["0"; "1"; "2"; "3"; "4"; "5"; "6"; "7"; "8"; "9"; "a"; "b"; "c"; "d"; "e"; "f"]%char "0"%char.

(** [\uXXXX], four lower-case hexadecimal digits. *)
Definition UnicodeEscape (c : ascii) : string :=
  let n := nat_of_ascii c in
  String backslash
    (String "u" (String "0" (String "0"
      (String (hex_digit (n / 16)) (String (hex_digit (n mod 16)) EmptyString))))).

Definition escape_code_unit (c : ascii) : string :=
  let n := nat_of_ascii c in
  if n =? 8 then String backslash "b"
  else if n =? 9 then String backslash "t"
  else if n =? 10 then String backslash "n"
  else if n =? 12 then String backslash "f"
  else if n =? 13 then String backslash "r"
  else if n =? 34 then String backslash (String dquote EmptyString)
  else if n =? 92 then String backslash (String backslash EmptyString)
  else if n <? 32 then UnicodeEscape c
  else String c EmptyString.

Fixpoint escape_code_units (s : string) : string :=
  match s with
  | EmptyString => EmptyString
  | String c rest => (escape_code_unit c ++ escape_code_units rest)%string
  end.

Definition QuoteJSONString (s : string) : string :=
  String dquote (escape_code_units s ++ String dquote EmptyString)%string.

(** Reading one escaped code unit back from the body of a JSON string, the
    way a JSON parser does: the code unit and the rest of the text, and
    nothing at the closing quote or at malformed text. *)
Definition hex_value (c : ascii) : option nat :=
  let n := nat_of_ascii c in
  if (48 <=? n) && (n <=? 57) then Some (n - 48)
  else if (97 <=? n) && (n <=? 102) then Some (n - 87)
  else None.

Definition read_escape (e : ascii) (rest : string) : option (ascii * string) :=
  let n := nat_of_ascii e in
  if n =? 98 then Some ("008"%char, rest)
  else if n =? 116 then Some ("009"%char, rest)
  else if n =? 110 then Some ("010"%char, rest)
  else if n =? 102 then Some ("012"%char, rest)
  else if n =? 114 then Some ("013"%char, rest)
  else if n =? 34 then Some (dquote, rest)
  else if n =? 92 then Some (backslash, rest)
  else if n =? 117 then
    match rest with
    | String "0" (String "0" (String h (String l rest'))) =>
        match hex_value h, hex_value l with
        | Some x, Some y => Some (ascii_of_nat (16 * x + y), rest')
        | _, _ => None
        end
    | _ => None
    end
  else None.

Definition read_code_unit (s : string) : option (ascii * string) :=
  match s with
  | EmptyString => None
  | String c rest =>
      if nat_of_ascii c =? 34 then None
      else if nat_of_ascii c =? 92 then
        match rest with
        | EmptyString => None
        | String e rest' => read_escape e rest'
        end
      else Some (c, rest)
  end.

(** An object literal with string-valued properties, in insertion order. *)
Definition js_object : Type := list (string * string).

Definition SerializeJSONProperty (kv : string * string) : string :=
  (QuoteJSONString (fst kv) ++ ":" ++ QuoteJSONString (snd kv))%string.

Definition JSON_stringify (o : js_object) : string :=
  ("{" ++ String.concat "," (map SerializeJSONProperty o) ++ "}")%string.

(** *** The page *)

(** The object handed to [send]. *)
Record message : Type := {
  kind : string;
  operation : string;
  data : string
}.

(** The four text inputs of the modal form, by name. The page's markup is
    not part of the script; each named input is taken to exist, so that
    [.val()] yields a string. *)
Record form_values : Type := {
  title : string;
  description : string;
  command : string;
  output : string
}.

(** A card of the list: its colour class and the current values of its four
    text inputs (header, meta, command, output). *)
Record card : Type := {
  color : string;
  header_input : string;
  meta_input : string;
  command_input : string;
  output_input : string
}.

(** What the script can observe and change: the messages handed to [send]
    (oldest first), the cards under [#cards-parent], the modal and its form. *)
Record page : Type := {
  sent : list message;
  cards : list card;
  modal_active : bool;
  form : form_values;
  form_focused : bool
}.

Definition cardColors : list string :=
  ["red"; "orange"; "yellow"; "olive"; "green"; "teal"; "blue"; "violet";
   "purple"; "pink"; "brown"; "grey"; "black"]%string.

Definition messageKindCommand : string := "command".
Definition messageOperationWrite : string := "write".
Definition messageOperationDelete : string := "delete".

(** The global [send]: the transport takes the object over. *)
Definition send (obj : message) (p : page) : page :=
  {| sent := sent p ++ [obj];
     cards := cards p;
     modal_active := modal_active p;
     form := form p;
     form_focused := form_focused p |}.

Definition sendCommand (kind operation data : string) (p : page) : page :=
  let obj := {| kind := kind; operation := operation; data := data |} in
  send obj p.

Definition sendNewCommand (title description command output : string) (p : page) : page :=
  let data := JSON_stringify [("title", title); ("description", description);
                              ("command", command); ("output", output)]%string in
  sendCommand messageKindCommand messageOperationWrite data p.

Definition sendDeleteCommand (title : string) (p : page) : page :=
  sendCommand messageKindCommand messageOperationDelete title p.

Definition empty_form : form_values :=
  {| title := ""; description := ""; command := ""; output := "" |}.

(** The markup of a new card, as [submitModalNewCommand] builds it: the
    template of the script with the colour class and the four texts spliced
    in as they are, without any escaping. [dq] stands for the double quote
    and [lf] for the line break of the script's string literals. *)
Definition dq : string := String dquote EmptyString.
Definition lf : string := String "010"%char EmptyString.

Definition newcard (color title description command output : string) : string :=
  String.concat ""
   [lf; "                        <div class="; dq; "ui "; color; " card"; dq; ">"; lf;
    "                            <div class="; dq; "content"; dq; ">"; lf;
    "                                <div class="; dq; "header"; dq; ">"; lf;
    "                                    <div class="; dq;
    "ui transparent fluid input header"; dq; ">"; lf;
    "                                        <input type="; dq; "text"; dq; " placeholder=";
    dq; "Title ..."; dq; " value="; dq; title; dq; ">"; lf;
    "                                    </div>"; lf;
    "                                </div>"; lf;
    "                                <div class="; dq; "meta"; dq; ">"; lf;
    "                                    <div class="; dq;
    "ui transparent fluid input meta"; dq; ">"; lf;
    "                                        <input type="; dq; "text"; dq; " placeholder=";
    dq; "Desription ..."; dq; " value="; dq; description; dq; ">"; lf;
    "                                    </div>"; lf;
    "                                </div>"; lf; "                            </div>"; lf;
    "                            <div class="; dq; "extra content"; dq; ">"; lf;
    "                                <div class="; dq; "description"; dq; ">"; lf;
    "                                    <div class="; dq; "ui transparent fluid input"; dq;
    ">"; lf; "                                        <input type="; dq; "text"; dq;
    " placeholder="; dq; "Your command ..."; dq; " value="; dq; command; dq; ">"; lf;
    "                                        <div class="; dq;
    "ui left pointing label olive"; dq; " style="; dq; "display: none"; dq; ">Keep it short";
    lf; "                                        </div>"; lf;
    "                                    </div>"; lf;
    "                                </div>"; lf; "                            </div>"; lf;
    "                            <div class="; dq; "extra content"; dq; ">"; lf;
    "                                <div class="; dq; "description"; dq; ">"; lf;
    "                                    <div class="; dq; "ui transparent fluid input"; dq;
    ">"; lf; "                                        <input type="; dq; "text"; dq;
    " placeholder="; dq; "Output text ..."; dq; " value="; dq; output; dq; ">"; lf;
    "                                    </div>"; lf;
    "                                </div>"; lf; "                            </div>"; lf;
    "                            <div class="; dq; "extra content"; dq; ">"; lf;
    "                                <div class="; dq; "ui two buttons"; dq; ">"; lf;
    "                                    <div class="; dq; "ui basic grey button disable";
    dq; ">Disable</div>"; lf; "                                    <div class="; dq;
    "ui basic red button delete"; dq; ">Delete</div>"; lf;
    "                                </div>"; lf; "                            </div>"; lf;
    "                        </div>"]%string.

Section Browser.

(** The complete cards (a card element with its four text inputs and its
    delete button) that the browser makes of a piece of markup inserted
    under [#cards-parent]. The script splices the texts in unescaped, so
    the markup of one command need not come out as one card: text with a
    double quote and tags can yield several cards or none, and can leave
    elements outside any card; such elements are no cards and [cards] does
    not list them. *)
Variable rendered : string -> list card.

(** [draw] is [Math.floor(Math.random() * cardColors.length)]. The markup
    goes after the last element of the list ([existingDiv.after]) or, when
    there is none, into the empty parent ([cardsParent.append]); either
    way what the browser makes of it comes last. *)
Definition submitModalNewCommand
    (draw : nat) (title description command output : string) (p : page) : page :=
  let newcard :=
    newcard (nth draw cardColors "undefined"%string) title description command output in
  let cards' :=
    match rev (cards p) with
    | _ :: _ => cards p ++ rendered newcard    (* existingDiv.after(newcard) *)
    | [] => cards p ++ rendered newcard        (* cardsParent.append(newcard) *)
    end in
  {| sent := sent p;
     cards := cards';
     modal_active := if modal_active p then false else modal_active p;
     form := form p;
     form_focused := form_focused p |}.

(** [form.focus()]. *)
Definition focus (p : page) : page :=
  {| sent := sent p;
     cards := cards p;
     modal_active := modal_active p;
     form := form p;
     form_focused := true |}.

(** [validateModal(form)]: [Some false] for [return false], [None] when the
    function runs to its end (the result is [undefined]). *)
Definition validateModal (draw : nat) (p : page) : option bool * page :=
  let inputTitle := title (form p) in
  if String.eqb inputTitle "" then
    (Some false, focus p)
  else
    let inputDescription := description (form p) in
    let inputCommand := command (form p) in
    let inputOutput := output (form p) in
    let p1 := sendNewCommand inputTitle inputDescription inputCommand inputOutput p in
    let p2 := submitModalNewCommand draw inputTitle inputDescription inputCommand inputOutput p1 in
    (None, p2).

(** The click handler of the add-command button: the modal is shown, and
    [onShow] clears the form. *)
Definition onAddCommandClick (p : page) : page :=
  {| sent := sent p;
     cards := cards p;
     modal_active := true;
     form := empty_form;
     form_focused := form_focused p |}.

Fixpoint remove_nth {A} (i : nat) (l : list A) : list A :=
  match l, i with
  | [], _ => []
  | _ :: rest, O => rest
  | x :: rest, S j => x :: remove_nth j rest
  end.

(** The click handler of a card's [.delete] button, for the button of the
    [i]-th card: the value of the card's header input is sent, then the card
    is removed. There is no such button when [i] is out of range. *)
Definition onDeleteClick (i : nat) (p : page) : page :=
  match nth_error (cards p) i with
  | Some c =>
      let p1 := sendDeleteCommand (header_input c) p in
      {| sent := sent p1;
         cards := remove_nth i (cards p1);
         modal_active := modal_active p1;
         form := form p1;
         form_focused := form_focused p1 |}
  | None => p
  end.

(** The handlers the script registers. *)
Inductive event : Type :=
| AddCommandClick
| FormSubmit (draw : nat)
| OkClick (draw : nat)
| DeleteClick (i : nat).

Definition handle (e : event) (p : page) : page :=
  match e with
  | AddCommandClick => onAddCommandClick p
  | FormSubmit draw => snd (validateModal draw p)
  | OkClick draw => snd (validateModal draw p)
  | DeleteClick i => onDeleteClick i p
  end.

End Browser.

(** The messages an execution added to those of [p]. *)
Definition new_messages (p p' : page) : list message :=
  skipn (List.length (sent p)) (sent p').

(** *** The registry-mutation format, in the words of the specification

    A tagged message with kind [command] and operation [write] or [delete];
    the data payload is the serialized fields for a write and the bare title
    string for a delete. *)
Inductive payload : Type :=
| WriteOf (title description trigger output : string)
| DeleteOf (title : string).

Definition serialized_fields (title description trigger output : string) : string :=
  JSON_stringify [("title", title); ("description", description);
                  ("command", trigger); ("output", output)]%string.

Definition tagged (pl : payload) : message :=
  match pl with
  | WriteOf t d c o =>
      {| kind := "command"; operation := "write"; data := serialized_fields t d c o |}
  | DeleteOf t =>
      {| kind := "command"; operation := "delete"; data := t |}
  end.

(** The mutation each handler is to send on page [p], if any. *)
Definition mutation_of (e : event) (p : page) : option payload :=
  match e with
  | AddCommandClick => None
  | FormSubmit _ | OkClick _ =>
      if String.eqb (title (form p)) "" then None
      else Some (WriteOf (title (form p)) (description (form p))
                         (command (form p)) (output (form p)))
  | DeleteClick i =>
      match nth_error (cards p) i with
      | Some c => Some (DeleteOf (header_input c))
      | None => None
      end
  end.

End Panel.

(* ===================================================================== *)
(** ** The Hook Channel's install operation *)
(* ===================================================================== *)

Module Channel.

Section Install.

Variable os : Win.OS.

(** The handle of the current module, for which the hook is installed. *)
Variable hmod : Z.

(** Modelled from the spec: the Hook Channel's [install(callback)], the
    caller of [SetWindowsHookExW] that inspects the handle, is not among the
    sources. By the specification it installs one global low-level keyboard
    hook for the current module and yields the handle, and it fails fatally
    when the underlying installation fails; the wrapper it calls is the one
    of the sources, which signals failure by a null handle. The text of the
    fatal error is not specified. *)
Definition install (callback : Win.HOOKPROC) : Win.M Z :=
  Win.bind (Win.SetWindowsHookExW os Win.WH_KEYBOARD_LL callback hmod 0)
    (fun handle =>
       if handle =? 0 then Win.panic "keyboard hook installation failed"
       else Win.ret handle).

End Install.

End Channel.

(* ===================================================================== *)
(** ** The Trigger Matcher and the Expansion Replayer *)
(* ===================================================================== *)

Module Matcher.

Local Open Scope nat_scope.

(** Modelled from the spec: the data model of section 3 ([Command],
    [ModifierState], [KeystrokeEvent]); none of these types is declared in
    the sources. *)
Record Command : Type := {
  trigger : string;
  title : string;
  description : string;
  output : string
}.

Record ModifierState : Type := {
  shift : bool;
  ctrl : bool;
  alt : bool
}.

Record KeystrokeEvent : Type := {
  virtualKeyCode : Z;
  isKeyUp : bool;
  modifierSnapshot : ModifierState;
  syntheticFlag : bool
}.

(** Modelled from the spec: the Command Registry, a mapping from trigger text
    to Command; an entry nearer the head is the later write. *)
Definition Registry : Type := list Command.

Definition lookup (reg : Registry) (t : string) : option Command :=
  find (fun c => String.eqb (trigger c) t) reg.

(** Modelled from the spec: the matcher's state, the rolling buffer (oldest
    character first) and the modifier state. *)
Record State : Type := {
  buffer : string;
  modifiers : ModifierState
}.

(** Modelled from the spec: the modifier keys are Shift, Ctrl and Alt. *)
Definition is_modifier (vk : Z) : bool :=
  ((vk =? Win.VK_SHIFT) || (vk =? Win.VK_CONTROL) || (vk =? Win.VK_MENU))%Z.

(** Modelled from the spec: the control keys that invalidate the buffer are
    the arrows, Home, End and Backspace. *)
Definition is_control_key (vk : Z) : bool :=
  ((vk =? Win.VK_LEFT) || (vk =? Win.VK_UP) || (vk =? Win.VK_RIGHT) || (vk =? Win.VK_DOWN)
   || (vk =? Win.VK_HOME) || (vk =? Win.VK_END) || (vk =? Win.VK_BACK))%Z.

(** Modelled from the spec: a modifier key sets its own flag of the
    modifier state. *)
Definition set_modifier (vk : Z) (down : bool) (m : ModifierState) : ModifierState :=
  {| shift := if (vk =? Win.VK_SHIFT)%Z then down else shift m;
     ctrl := if (vk =? Win.VK_CONTROL)%Z then down else ctrl m;
     alt := if (vk =? Win.VK_MENU)%Z then down else alt m |}.

Fixpoint drop (n : nat) (s : string) : string :=
  match n, s with
  | O, _ => s
  | S _, EmptyString => EmptyString
  | S k, String _ rest => drop k rest
  end.

Fixpoint take (n : nat) (s : string) : string :=
  match n, s with
  | O, _ => EmptyString
  | S _, EmptyString => EmptyString
  | S k, String c rest => String c (take k rest)
  end.

(** Modelled from the spec: a bounded buffer keeps the newest [n]
    characters of [s]; the oldest are evicted first. *)
Definition keep_last (n : nat) (s : string) : string :=
  drop (String.length s - n) s.

(** Modelled from the spec: the suffixes of the buffer are looked up in the
    registry, the longest first. *)
Fixpoint longest_match (reg : Registry) (b : string) : option Command :=
  match b with
  | EmptyString => None
  | String _ rest =>
      match lookup reg b with
      | Some c => Some c
      | None => longest_match reg rest
      end
  end.

Section Engine.

(** The configured maximum length of the rolling buffer. *)
Variable max_length : nat.

(** The literal character of a virtual key under a modifier state, where
    the key is translatable. *)
Variable translate : Z -> ModifierState -> option ascii.

(** The key that types a character, and whether it needs Shift. *)
Variable key_for : ascii -> option (Z * bool).

(** Modelled from the spec: one transition of the Trigger Matcher (section
    4.3), with the matched Command when the Expansion Replayer is to be
    invoked. Events flagged synthetic are ignored. For a real event: a
    modifier key updates the modifier state (the release of a modifier is
    read from [isKeyUp]); another key-down either invalidates the buffer
    (control keys), or is translated and appended, evicting beyond the
    maximum length, after which the longest registered suffix, if any, is
    matched and the consumed portion of the buffer cleared; a key that does
    not translate is not appended. *)
Definition step (reg : Registry) (st : State) (ev : KeystrokeEvent)
    : State * option Command :=
  let vk := virtualKeyCode ev in
  if syntheticFlag ev then (st, None)
  else if is_modifier vk then
    ({| buffer := buffer st;
        modifiers := set_modifier vk (negb (isKeyUp ev)) (modifiers st) |}, None)
  else if isKeyUp ev then (st, None)
  else if is_control_key vk then
    ({| buffer := EmptyString; modifiers := modifiers st |}, None)
  else
    match translate vk (modifiers st) with
    | None => (st, None)
    | Some c =>
        let b := keep_last max_length (buffer st ++ String c EmptyString)%string in
        match longest_match reg b with
        | Some cmd =>
            ({| buffer := take (String.length b - String.length (trigger cmd)) b;
                modifiers := modifiers st |}, Some cmd)
        | None => ({| buffer := b; modifiers := modifiers st |}, None)
        end
    end.

(** Modelled from the spec: the matcher over a sequence of events, one
    transition per event; the final state and the matches fired, in order. *)
Fixpoint run (reg : Registry) (st : State) (evs : list KeystrokeEvent)
    : State * list Command :=
  match evs with
  | [] => (st, [])
  | ev :: rest =>
      let '(st1, fired) := step reg st ev in
      let '(st2, later) := run reg st1 rest in
      (st2, match fired with Some c => c :: later | None => later end)
  end.

Definition no_modifiers : ModifierState :=
  {| shift := false; ctrl := false; alt := false |}.

Definition shift_only : ModifierState :=
  {| shift := true; ctrl := false; alt := false |}.

(** Modelled from the spec: an event the replayer injects, as the hook sees
    it, carries the synthetic flag. *)
Definition injected (vk : Z) (up : bool) (snapshot : ModifierState) : KeystrokeEvent :=
  {| virtualKeyCode := vk; isKeyUp := up; modifierSnapshot := snapshot;
     syntheticFlag := true |}.

(** Modelled from the spec: a key-down/key-up pair. *)
Definition press (vk : Z) (snapshot : ModifierState) : list KeystrokeEvent :=
  [injected vk false snapshot; injected vk true snapshot].

(** Modelled from the spec: the minimal chord for one character of the
    output, Shift-down, key, Shift-up for a key that needs Shift and the
    plain key otherwise; nothing for a character no key types. *)
Definition chord (c : ascii) : list KeystrokeEvent :=
  match key_for c with
  | None => []
  | Some (vk, true) =>
      injected Win.VK_SHIFT false shift_only
        :: press vk shift_only ++ [injected Win.VK_SHIFT true no_modifiers]
  | Some (vk, false) => press vk no_modifiers
  end.

(** Modelled from the spec: [n] Backspace pairs, and the chords of a text. *)
Fixpoint backspaces (n : nat) : list KeystrokeEvent :=
  match n with
  | O => []
  | S k => press Win.VK_BACK no_modifiers ++ backspaces k
  end.

Fixpoint typed (o : string) : list KeystrokeEvent :=
  match o with
  | EmptyString => []
  | String c rest => chord c ++ typed rest
  end.

(** Modelled from the spec: the events of the Expansion Replayer for a
    matched Command (section 4.4), one Backspace pair per character of the
    trigger, then the output text, all marked synthetic. *)
Definition replay (cmd : Command) : list KeystrokeEvent :=
  backspaces (String.length (trigger cmd)) ++ typed (output cmd).

(** The same keys as the user would press them: an event without the
    synthetic mark. *)
Definition as_real (ev : KeystrokeEvent) : KeystrokeEvent :=
  {| virtualKeyCode := virtualKeyCode ev; isKeyUp := isKeyUp ev;
     modifierSnapshot := modifierSnapshot ev; syntheticFlag := false |}.

End Engine.

(** Modelled from the spec: an event is synthetic when its flag is set. *)
Definition synthetic (ev : KeystrokeEvent) : Prop := syntheticFlag ev = true.

End Matcher.

(* ===================================================================== *)
(** ** Concrete systems, pages and keyboards for the examples *)
(* ===================================================================== *)

(** An operating system that answers every call with the same reply and
    loads every library. *)
Definition constant_os (r : Win.Reply) : Win.OS :=
  {| Win.load := fun _ => None; Win.reply := fun _ _ => r |}.

(** An operating system on which no library loads. *)
Definition os_without_user32 (text : string) : Win.OS :=
  {| Win.load := fun _ => Some text;
     Win.reply := fun _ _ => {| Win.r1 := 0; Win.r2 := 0; Win.lastErr := 0 |} |}.

Definition keyboard_input : Win.tagINPUT :=
  {| Win.inputType := Win.INPUT_KEYBOARD;
     Win.ki := Keys.zero_KEYBDINPUT;
     Win.padding := 0 |}.

(** A keyboard of letters and the space bar: the letter keys give lower
    case, and upper case under Shift. *)
Definition letters_translate (vk : Z) (m : Matcher.ModifierState) : option ascii :=
  if (0x41 <=? vk) && (vk <=? 0x5A) then
    Some (ascii_of_nat (Z.to_nat vk + (if Matcher.shift m then 0 else 32)))
  else if vk =? Win.VK_SPACE then Some " "%char
  else None.

Definition letters_key_for (c : ascii) : option (Z * bool) :=
  let n := Z.of_nat (nat_of_ascii c) in
  if (97 <=? n) && (n <=? 122) then Some (n - 32, false)
  else if (65 <=? n) && (n <=? 90) then Some (n, true)
  else if n =? 32 then Some (Win.VK_SPACE, false)
  else None.

(** A command whose output contains its own trigger. *)
Definition btw : Matcher.Command :=
  {| Matcher.trigger := "btw";
     Matcher.title := "By the way";
     Matcher.description := "";
     Matcher.output := "btw is By the way" |}.

Definition idle : Matcher.State :=
  {| Matcher.buffer := ""; Matcher.modifiers := Matcher.no_modifiers |}.

(* ===================================================================== *)
(** ** The wrappers as one interface, and calls in sequence *)
(* ===================================================================== *)

Module Api.

Import Win.
Local Open Scope list_scope.

(** One invocation of a wrapper of the package, with its arguments. *)
Inductive invocation : Type :=
| DoCallNextHookEx (hhk nCode wParam lParam : Z)
| DoSetWindowsHookExW (idHook : Z) (lpfn : HOOKPROC) (hmod dwThreadID : Z)
| DoUnhookWindowsHookEx (hhk : Z)
| DoGetMessageW (lpMsg hWnd wMsgFilterMin wMsgFilterMax : Z)
| DoSendInput (cInputs : Z) (pInputs : LPINPUT) (cbSize : Z)
| DoGetKeyState (nVirtKey : Z).

(** What a wrapper returns: a number or a boolean. *)
Inductive value : Type :=
| Number (z : Z)
| Boolean (b : bool).

Definition invoke (os : OS) (i : invocation) : M value :=
  match i with
  | DoCallNextHookEx hhk nCode wParam lParam =>
      bind (CallNextHookEx os hhk nCode wParam lParam) (fun r => ret (Number r))
  | DoSetWindowsHookExW idHook lpfn hmod dwThreadID =>
      bind (SetWindowsHookExW os idHook lpfn hmod dwThreadID) (fun r => ret (Number r))
  | DoUnhookWindowsHookEx hhk =>
      bind (UnhookWindowsHookEx os hhk) (fun b => ret (Boolean b))
  | DoGetMessageW lpMsg hWnd wMsgFilterMin wMsgFilterMax =>
      bind (GetMessageW os lpMsg hWnd wMsgFilterMin wMsgFilterMax) (fun b => ret (Boolean b))
  | DoSendInput cInputs pInputs cbSize =>
      bind (SendInput os cInputs pInputs cbSize) (fun r => ret (Number r))
  | DoGetKeyState nVirtKey =>
      bind (GetKeyState os nVirtKey) (fun r => ret (Number r))
  end.

(** The wrappers called one after the other, as a caller's straight-line
    code does; a panic ends the sequence. *)
Fixpoint invoke_all (os : OS) (invs : list invocation) : M (list value) :=
  match invs with
  | [] => ret []
  | i :: rest =>
      bind (invoke os i) (fun v =>
      bind (invoke_all os rest) (fun vs =>
      ret (v :: vs)))
  end.

(** The system call an invocation makes. *)
Definition call_of (i : invocation) : Syscall :=
  match i with
  | DoCallNextHookEx hhk nCode wParam lParam => CallNextHookEx_call hhk nCode wParam lParam
  | DoSetWindowsHookExW idHook lpfn hmod dwThreadID =>
      SetWindowsHookExW_call idHook lpfn hmod dwThreadID
  | DoUnhookWindowsHookEx hhk => UnhookWindowsHookEx_call hhk
  | DoGetMessageW lpMsg hWnd wMsgFilterMin wMsgFilterMax =>
      GetMessageW_call lpMsg hWnd wMsgFilterMin wMsgFilterMax
  | DoSendInput cInputs pInputs cbSize => SendInput_call cInputs pInputs cbSize
  | DoGetKeyState nVirtKey => GetKeyState_call nVirtKey
  end.

(** Whether a returned value is the failure value of its wrapper: false for
    [UnhookWindowsHookEx] and [GetMessageW], 0 for [SendInput]. The other
    wrappers have none. *)
Definition is_failure_value (i : invocation) (v : value) : bool :=
  match i, v with
  | DoUnhookWindowsHookEx _, Boolean false => true
  | DoGetMessageW _ _ _ _, Boolean false => true
  | DoSendInput _ _ _, Number 0 => true
  | _, _ => false
  end.

Fixpoint failures (invs : list invocation) (vs : list value) : nat :=
  match invs, vs with
  | i :: invs', v :: vs' => ((if is_failure_value i v then 1 else 0) + failures invs' vs')%nat
  | _, _ => 0%nat
  end.

(** The text a wrapper starts its log line with; the unchecked wrappers
    log nothing. *)
Definition error_prefix (i : invocation) : option string :=
  match i with
  | DoUnhookWindowsHookEx _ => Some "UnhookWindowsHookEx error:"%string
  | DoGetMessageW _ _ _ _ => Some "GetMessageW error:"%string
  | DoSendInput _ _ _ => Some "SendInput error:"%string
  | _ => None
  end.

(** The prefixes of the invocations that returned their failure value, in
    the order of the invocations. *)
Fixpoint failure_prefixes (invs : list invocation) (vs : list value) : list (option string) :=
  match invs, vs with
  | i :: invs', v :: vs' =>
      (if is_failure_value i v then [error_prefix i] else []) ++ failure_prefixes invs' vs'
  | _, _ => []
  end.

(** The log the package is to keep, stated apart from the wrappers: going
    through the invocations in order, with [cs] the system calls made so
    far, a checked wrapper whose call comes back with a zero first result
    adds one line, its own prefix followed by the error the system
    reported for that call; nothing else adds a line. *)
Definition line_of (os : OS) (cs : list Syscall) (i : invocation) : list LogLine :=
  match error_prefix i with
  | Some text =>
      if uintptr (r1 (reply os cs (call_of i))) =? 0
      then [{| prefix := text; err := lastErr (reply os cs (call_of i)) |}]
      else []
  | None => []
  end.

Fixpoint expected_log (os : OS) (cs : list Syscall) (invs : list invocation) : list LogLine :=
  match invs with
  | [] => []
  | i :: rest => line_of os cs i ++ expected_log os (cs ++ [call_of i]) rest
  end.

(** The three texts a log line of the package can start with. *)
Definition log_prefixes : list string :=
  ["UnhookWindowsHookEx error:"; "GetMessageW error:"; "SendInput error:"]%string.

End Api.

(* ===================================================================== *)
(** ** The page in use: handlers and the user's edits in sequence *)
(* ===================================================================== *)

Module Session.

Import Panel.
Local Open Scope nat_scope.
Local Open Scope list_scope.

(** The user types into the modal form: the four inputs take new values. *)
Definition typeInForm (f : form_values) (p : page) : page :=
  {| sent := sent p;
     cards := cards p;
     modal_active := modal_active p;
     form := f;
     form_focused := form_focused p |}.

Fixpoint replace_nth {A} (i : nat) (x : A) (l : list A) : list A :=
  match l, i with
  | [], _ => []
  | _ :: rest, O => x :: rest
  | y :: rest, S j => y :: replace_nth j x rest
  end.

(** The user types into the four text inputs of the [i]-th card; the card
    keeps its colour. There is no such card when [i] is out of range. *)
Definition typeInCard (i : nat) (header meta cmd out : string) (p : page) : page :=
  match nth_error (cards p) i with
  | Some c =>
      {| sent := sent p;
         cards := replace_nth i {| color := color c; header_input := header;
                                   meta_input := meta; command_input := cmd;
                                   output_input := out |} (cards p);
         modal_active := modal_active p;
         form := form p;
         form_focused := form_focused p |}
  | None => p
  end.

(** What happens on the page: a handler of the script runs, or the user
    edits the text inputs (which runs no code of the script). *)
Inductive interaction : Type :=
| Handler (e : event)
| TypeInForm (f : form_values)
| TypeInCard (i : nat) (header meta cmd out : string).

Section Browser.

Variable rendered : string -> list card.

Definition interact (a : interaction) (p : page) : page :=
  match a with
  | Handler e => handle rendered e p
  | TypeInForm f => typeInForm f p
  | TypeInCard i header meta cmd out => typeInCard i header meta cmd out p
  end.

Fixpoint session (acts : list interaction) (p : page) : page :=
  match acts with
  | [] => p
  | a :: rest => session rest (interact a p)
  end.

End Browser.

(** Whether a message is a registry mutation by its tags. *)
Definition is_mutation (m : message) : Prop :=
  kind m = messageKindCommand
  /\ (operation m = messageOperationWrite \/ operation m = messageOperationDelete).

(** Whether every code unit of a text is 32 or more. *)
Definition all_at_least_32 (s : string) : bool :=
  forallb (fun c => 32 <=? nat_of_ascii c) (list_ascii_of_string s).

(** The double quotes of a text that are not escaped, reading the text from
    the left: a backslash escapes the code unit after it, whatever that is,
    and [escaped] tells whether the first code unit is escaped. *)
Fixpoint unescaped_quotes (escaped : bool) (s : string) : nat :=
  match s with
  | EmptyString => 0
  | String c rest =>
      if escaped then unescaped_quotes false rest
      else if nat_of_ascii c =? 92 then unescaped_quotes true rest
      else if nat_of_ascii c =? 34 then S (unescaped_quotes false rest)
      else unescaped_quotes false rest
  end.

(** The double quotes of a text, all of them. *)
Fixpoint quotes (s : string) : nat :=
  match s with
  | EmptyString => 0
  | String c rest => (if nat_of_ascii c =? 34 then 1 else 0) + quotes rest
  end.

End Session.

(** A browser that shows no card, whatever the markup. *)
Definition blank_browser : string -> list Panel.card := fun _ => []%list.

(** A page with a filled form and one card. *)
Definition filled_page : Panel.page :=
  {| Panel.sent := [];
     Panel.cards := [{| Panel.color := "red"; Panel.header_input := "Greeting";
                        Panel.meta_input := ""; Panel.command_input := "hi";
                        Panel.output_input := "hello" |}]%list;
     Panel.modal_active := true;
     Panel.form := {| Panel.title := "Farewell"; Panel.description := "";
                      Panel.command := "bye"; Panel.output := "goodbye" |};
     Panel.form_focused := false |}.

(** The ten constructors of hookCommonInputKey.go, in the order of the
    file. *)
Definition all_constructors : list Keys.TagINPUT :=
  [Keys.tagInputShiftDown; Keys.tagInputShiftUp;
   Keys.tagInputCtrlDown; Keys.tagInputCtrlUp;
   Keys.tagInputAltDown; Keys.tagInputAltUp;
   Keys.tagInputLeftArrowDown; Keys.tagInputUpArrowDown;
   Keys.tagInputRightArrowDown; Keys.tagInputDownnArrowDown]%list.

(* ===================================================================== *)
(** ** Properties of the user32 wrappers *)
(* ===================================================================== *)

Section WinFacts.

Import Win.

Lemma skipn_own_length {A} (l extra : list A) :
  skipn (List.length l) (l ++ extra) = extra.
Proof.
  induction l as [|x l IH]; simpl; [reflexivity | exact IH].
Qed.

Lemma uintptr_range (z : Z) : 0 <= uintptr z < 2 ^ 64.
Proof.
  unfold uintptr, to_unsigned, word_bits. apply Z.mod_pos_bound. lia.
Qed.

Lemma uint_of_uintptr (z : Z) : uint (uintptr z) = uintptr z.
Proof.
  unfold uint, uintptr, to_unsigned. apply Z.mod_mod. unfold word_bits. lia.
Qed.

Lemma uintptr_idem (z : Z) : uintptr (uintptr z) = uintptr z.
Proof. exact (uint_of_uintptr z). Qed.

Lemma uintptr_small (z : Z) : 0 <= z < 2 ^ 64 -> uintptr z = z.
Proof.
  intros H. unfold uintptr, to_unsigned, word_bits. apply Z.mod_small. exact H.
Qed.

Variable os : OS.

(** Runs a wrapper up to the test of its result. *)
Ltac run_wrapper f c :=
  cbv zeta; unfold f, bind, Call, result_of, error_of, c; cbn [r1 lastErr].

(** What each checked wrapper does, by the result of its one system call. *)
Lemma UnhookWindowsHookEx_run (hhk : Z) (w : World) :
  let c := UnhookWindowsHookEx_call hhk in
  UnhookWindowsHookEx os hhk w =
    if result_of os w c =? 0
    then Returns false
           {| calls := calls w ++ [c];
              logged := logged w ++ [{| prefix := "UnhookWindowsHookEx error:"; err := error_of os w c |}] |}
    else Returns true {| calls := calls w ++ [c]; logged := logged w |}.
Proof.
  run_wrapper UnhookWindowsHookEx UnhookWindowsHookEx_call.
  destruct (_ =? 0); reflexivity.
Qed.

Lemma GetMessageW_run (lpMsg hWnd wMsgFilterMin wMsgFilterMax : Z) (w : World) :
  let c := GetMessageW_call lpMsg hWnd wMsgFilterMin wMsgFilterMax in
  GetMessageW os lpMsg hWnd wMsgFilterMin wMsgFilterMax w =
    if result_of os w c =? 0
    then Returns false
           {| calls := calls w ++ [c];
              logged := logged w ++ [{| prefix := "GetMessageW error:"; err := error_of os w c |}] |}
    else Returns true {| calls := calls w ++ [c]; logged := logged w |}.
Proof.
  run_wrapper GetMessageW GetMessageW_call.
  destruct (_ =? 0); reflexivity.
Qed.

Lemma SendInput_run (cInputs : Z) (pInputs : LPINPUT) (cbSize : Z) (w : World) :
  let c := SendInput_call cInputs pInputs cbSize in
  SendInput os cInputs pInputs cbSize w =
    if result_of os w c =? 0
    then Returns 0
           {| calls := calls w ++ [c];
              logged := logged w ++ [{| prefix := "SendInput error:"; err := error_of os w c |}] |}
    else Returns (result_of os w c) {| calls := calls w ++ [c]; logged := logged w |}.
Proof.
  run_wrapper SendInput SendInput_call.
  destruct (_ =? 0); [reflexivity|].
  unfold ret. rewrite uint_of_uintptr. reflexivity.
Qed.

Lemma SetWindowsHookExW_run (idHook : Z) (lpfn : HOOKPROC) (hmod dwThreadID : Z) (w : World) :
  let c := SetWindowsHookExW_call idHook lpfn hmod dwThreadID in
  SetWindowsHookExW os idHook lpfn hmod dwThreadID w =
    Returns (result_of os w c) {| calls := calls w ++ [c]; logged := logged w |}.
Proof.
  run_wrapper SetWindowsHookExW SetWindowsHookExW_call.
  unfold ret, HHOOK. rewrite uintptr_idem. reflexivity.
Qed.

End WinFacts.

(** C1 (the code departs from the claim). [SendInput] called for two input
    structures makes one call to the system, without retry, that announces
    two structures, while the address it passes holds one structure only:
    the function receives a single [tagINPUT] by value and passes the
    address of that copy. The count the system reports (here 2) is returned
    as it is. *)
Theorem SendInput_announces_two_but_holds_one :
  let os := constant_os {| Win.r1 := 2; Win.r2 := 0; Win.lastErr := 0 |} in
  let o := Win.SendInput os 2 keyboard_input 40 Win.fresh in
  map Win.announced_count (Win.new_calls Win.fresh o) = [2]
  /\ map Win.structures_at_address (Win.new_calls Win.fresh o) = [1]
  /\ Win.returned o = Some 2.
Proof.
  cbv zeta. repeat split; reflexivity.
Qed.

(** X7. [SendInput] makes exactly one system call whatever the reply (no retry);
    the call announces [cInputs] structures and its address holds the one
    structure [pInputs]. *)
Lemma SendInput_one_call (os : Win.OS) (w : Win.World)
    (cInputs : Z) (pInputs : Win.LPINPUT) (cbSize : Z) :
  Win.new_calls w (Win.SendInput os cInputs pInputs cbSize w)
    = [Win.SendInput_call cInputs pInputs cbSize]
  /\ Win.structures_at_address (Win.SendInput_call cInputs pInputs cbSize) = 1
  /\ Win.announced_count (Win.SendInput_call cInputs pInputs cbSize) = Win.uintptr cInputs.
Proof.
  pose proof (SendInput_run os cInputs pInputs cbSize w) as E. cbv zeta in E.
  repeat split. rewrite E. unfold Win.new_calls.
  destruct (_ =? 0); simpl; apply skipn_own_length.
Qed.

(** C3 (the code departs from the claim). When message retrieval fails the
    system's GetMessageW answers -1, and 0 is its answer to a quit message.
    [GetMessageW] tests the result against 0: on the reply -1, here with
    error 1400, it returns true and writes no log line, where the claim has
    it log the error and return false. *)
Theorem GetMessageW_error_reply_passes_as_success :
  let os := constant_os {| Win.r1 := -1; Win.r2 := 0; Win.lastErr := 1400 |} in
  Win.GetMessageW os 0 7 0 0 Win.fresh
  = Win.Returns true {| Win.calls := [Win.GetMessageW_call 0 7 0 0]; Win.logged := [] |}.
Proof.
  cbv zeta. reflexivity.
Qed.

(** X21. When the system call of [UnhookWindowsHookEx], of [GetMessageW] or
    of [SendInput] comes back with a zero first result, the wrapper writes
    one log line with the error the system reported and returns false,
    false and 0 respectively; it returns, it does not panic. *)
Theorem zero_results_are_logged_and_returned :
  forall (os : Win.OS) (w : Win.World),
    (forall hhk,
        let c := Win.UnhookWindowsHookEx_call hhk in
        Win.result_of os w c = 0 ->
        Win.UnhookWindowsHookEx os hhk w =
          Win.Returns false
            {| Win.calls := Win.calls w ++ [c];
               Win.logged := Win.logged w ++
                 [{| Win.prefix := "UnhookWindowsHookEx error:"; Win.err := Win.error_of os w c |}] |})
    /\ (forall lpMsg hWnd wMsgFilterMin wMsgFilterMax,
        let c := Win.GetMessageW_call lpMsg hWnd wMsgFilterMin wMsgFilterMax in
        Win.result_of os w c = 0 ->
        Win.GetMessageW os lpMsg hWnd wMsgFilterMin wMsgFilterMax w =
          Win.Returns false
            {| Win.calls := Win.calls w ++ [c];
               Win.logged := Win.logged w ++
                 [{| Win.prefix := "GetMessageW error:"; Win.err := Win.error_of os w c |}] |})
    /\ (forall cInputs pInputs cbSize,
        let c := Win.SendInput_call cInputs pInputs cbSize in
        Win.result_of os w c = 0 ->
        Win.SendInput os cInputs pInputs cbSize w =
          Win.Returns 0
            {| Win.calls := Win.calls w ++ [c];
               Win.logged := Win.logged w ++
                 [{| Win.prefix := "SendInput error:"; Win.err := Win.error_of os w c |}] |}).
Proof.
  intros os w. repeat split.
  - intros hhk c H. subst c. rewrite UnhookWindowsHookEx_run. cbv zeta. rewrite H. reflexivity.
  - intros lpMsg hWnd mn mx c H. subst c. rewrite GetMessageW_run. cbv zeta. rewrite H. reflexivity.
  - intros cInputs pInputs cbSize c H. subst c. rewrite SendInput_run. cbv zeta. rewrite H. reflexivity.
Qed.

(** The three wrappers on a system that answers every call with 0 and
    error 5. *)
Lemma zero_results_are_logged_and_returned_witness :
  let os := constant_os {| Win.r1 := 0; Win.r2 := 0; Win.lastErr := 5 |} in
  Win.returned (Win.UnhookWindowsHookEx os 7 Win.fresh) = Some false
  /\ Win.returned (Win.GetMessageW os 0 0 0 0 Win.fresh) = Some false
  /\ Win.returned (Win.SendInput os 1 keyboard_input 40 Win.fresh) = Some 0
  /\ Win.logged (Win.world_of (Win.SendInput os 1 keyboard_input 40 Win.fresh))
       = [{| Win.prefix := "SendInput error:"; Win.err := 5 |}].
Proof.
  cbv zeta.
  destruct (zero_results_are_logged_and_returned
              (constant_os {| Win.r1 := 0; Win.r2 := 0; Win.lastErr := 5 |}) Win.fresh)
    as (HU & HG & HS).
  rewrite (HU 7 eq_refl), (HG 0 0 0 0 eq_refl), (HS 1 keyboard_input 40 eq_refl).
  repeat split; reflexivity.
Defined.

(** C4. When the system's hook installation fails, that is when the
    SetWindowsHookExW wrapper comes back with a null handle, the install
    operation panics: the wrapper itself returns the null handle without a
    log line, and install turns it into a fatal error instead of returning
    the handle. *)
Theorem install_is_fatal_on_null_handle :
  forall (os : Win.OS) (hmod : Z) (callback : Win.HOOKPROC) (w : Win.World),
    let c := Win.SetWindowsHookExW_call Win.WH_KEYBOARD_LL callback hmod 0 in
    Win.result_of os w c = 0 ->
    Win.SetWindowsHookExW os Win.WH_KEYBOARD_LL callback hmod 0 w
      = Win.Returns 0 {| Win.calls := Win.calls w ++ [c]; Win.logged := Win.logged w |}
    /\ Win.panicked (Channel.install os hmod callback w) = true
    /\ Win.returned (Channel.install os hmod callback w) = None.
Proof.
  intros os hmod callback w c H. subst c.
  pose proof (SetWindowsHookExW_run os Win.WH_KEYBOARD_LL callback hmod 0 w) as E.
  cbv zeta in E. rewrite H in E.
  split; [exact E|].
  unfold Channel.install, Win.bind. rewrite E. simpl. split; reflexivity.
Qed.

Lemma install_is_fatal_on_null_handle_witness :
  let os := constant_os {| Win.r1 := 0; Win.r2 := 0; Win.lastErr := 1428 |} in
  Win.panicked (Channel.install os 0 (fun _ _ _ => 0) Win.fresh) = true.
Proof.
  cbv zeta.
  exact (proj1 (proj2 (install_is_fatal_on_null_handle
    (constant_os {| Win.r1 := 0; Win.r2 := 0; Win.lastErr := 1428 |})
    0 (fun _ _ _ => 0) Win.fresh eq_refl))).
Defined.

(** With a handle that is not null, install returns that handle. *)
Lemma install_returns_the_handle
    (os : Win.OS) (hmod : Z) (callback : Win.HOOKPROC) (w : Win.World) :
  let c := Win.SetWindowsHookExW_call Win.WH_KEYBOARD_LL callback hmod 0 in
  Win.result_of os w c <> 0 ->
  Win.returned (Channel.install os hmod callback w) = Some (Win.result_of os w c).
Proof.
  intros c H. subst c.
  pose proof (SetWindowsHookExW_run os Win.WH_KEYBOARD_LL callback hmod 0 w) as E.
  cbv zeta in E. unfold Channel.install, Win.bind. rewrite E.
  destruct (Z.eqb_spec (Win.result_of os w
    (Win.SetWindowsHookExW_call Win.WH_KEYBOARD_LL callback hmod 0)) 0) as [Z0|_];
    [contradiction | reflexivity].
Qed.

(** C5. If loading user32.dll fails, [LoadDLLs] panics, with the text of the
    error after the words LoadDLL error; it neither returns nor makes any
    system call or log entry. *)
Theorem LoadDLLs_panics_when_loading_fails :
  forall (os : Win.OS) (w : Win.World) (text : string),
    Win.load os Win.winDLLUser32 = Some text ->
    Win.LoadDLLs os w = Win.Panics ("LoadDLL error" ++ text) w
    /\ Win.returned (Win.LoadDLLs os w) = None.
Proof.
  intros os w text H.
  assert (E : Win.LoadDLLs os w = Win.Panics ("LoadDLL error" ++ text) w).
  { unfold Win.LoadDLLs, Win.bind, Win.Load. rewrite H. reflexivity. }
  split; [exact E | rewrite E; reflexivity].
Qed.

Lemma LoadDLLs_panics_when_loading_fails_witness :
  Win.LoadDLLs (os_without_user32 ": not found") Win.fresh
    = Win.Panics "LoadDLL error: not found" Win.fresh.
Proof.
  exact (proj1 (LoadDLLs_panics_when_loading_fails
                  (os_without_user32 ": not found") Win.fresh ": not found" eq_refl)).
Defined.

(** When the library loads, [LoadDLLs] returns and changes nothing. *)
Lemma LoadDLLs_returns_when_loaded (os : Win.OS) (w : Win.World) :
  Win.load os Win.winDLLUser32 = None ->
  Win.LoadDLLs os w = Win.Returns tt w.
Proof.
  intros H. unfold Win.LoadDLLs, Win.bind, Win.Load. rewrite H. reflexivity.
Qed.

(** C9. [GetMessageW] returns false exactly when the first result of the
    system call is zero, and then it writes one log line; for every other
    result it returns true and logs nothing, the all-ones word that stands
    for the system's -1 included. *)
Theorem GetMessageW_false_exactly_on_zero :
  forall (os : Win.OS) (w : Win.World) (lpMsg hWnd wMsgFilterMin wMsgFilterMax : Z),
    let c := Win.GetMessageW_call lpMsg hWnd wMsgFilterMin wMsgFilterMax in
    let o := Win.GetMessageW os lpMsg hWnd wMsgFilterMin wMsgFilterMax w in
    (Win.returned o = Some false <-> Win.result_of os w c = 0)
    /\ (Win.new_lines w o <> [] <-> Win.result_of os w c = 0)
    /\ (Win.result_of os w c = 0 ->
        Win.new_lines w o = [{| Win.prefix := "GetMessageW error:"; Win.err := Win.error_of os w c |}])
    /\ (Win.result_of os w c <> 0 ->
        Win.returned o = Some true /\ Win.new_lines w o = [])
    /\ (Win.r1 (Win.reply os (Win.calls w) c) = -1 ->
        Win.returned o = Some true /\ Win.new_lines w o = []).
Proof.
  intros os w lpMsg hWnd mn mx c o. subst o c.
  rewrite GetMessageW_run. cbv zeta.
  set (c := Win.GetMessageW_call lpMsg hWnd mn mx).
  assert (Hminus : Win.r1 (Win.reply os (Win.calls w) c) = -1 -> Win.result_of os w c <> 0).
  { intros H. unfold Win.result_of. rewrite H. vm_compute. discriminate. }
  unfold Win.new_lines.
  destruct (Z.eqb_spec (Win.result_of os w c) 0) as [E|E]; simpl.
  - rewrite skipn_own_length.
    split; [split; auto|]. split; [split; [auto | discriminate]|].
    split; [reflexivity|]. split; [contradiction|].
    intros H. exfalso. exact (Hminus H E).
  - rewrite skipn_all.
    split; [split; [discriminate | contradiction]|].
    split; [split; [intros H; exfalso; apply H; reflexivity | contradiction]|].
    split; [contradiction|]. split; intros _; split; reflexivity.
Qed.

(** On a system that replies -1, [GetMessageW] reports success and the log
    stays empty. *)
Lemma GetMessageW_false_exactly_on_zero_witness :
  let os := constant_os {| Win.r1 := -1; Win.r2 := 0; Win.lastErr := 1400 |} in
  Win.returned (Win.GetMessageW os 0 0 0 0 Win.fresh) = Some true
  /\ Win.new_lines Win.fresh (Win.GetMessageW os 0 0 0 0 Win.fresh) = [].
Proof.
  cbv zeta.
  exact (proj2 (proj2 (proj2 (proj2 (GetMessageW_false_exactly_on_zero
    (constant_os {| Win.r1 := -1; Win.r2 := 0; Win.lastErr := 1400 |})
    Win.fresh 0 0 0 0)))) eq_refl).
Defined.

(** C10. [SendInput] returns the first result of the system call, so it
    returns 0 exactly when that result is 0; the error code reaches the log
    only, and only then: two systems that report the same count and
    different errors give the caller the same value. *)
Theorem SendInput_zero_exactly_on_zero :
  forall (os : Win.OS) (w : Win.World) (cInputs : Z) (pInputs : Win.LPINPUT) (cbSize : Z),
    let c := Win.SendInput_call cInputs pInputs cbSize in
    let o := Win.SendInput os cInputs pInputs cbSize w in
    Win.returned o = Some (Win.result_of os w c)
    /\ (Win.returned o = Some 0 <-> Win.result_of os w c = 0)
    /\ Win.new_lines w o =
         (if Win.result_of os w c =? 0
          then [{| Win.prefix := "SendInput error:"; Win.err := Win.error_of os w c |}]
          else [])
    /\ (forall (os' : Win.OS) (w' : Win.World),
          Win.result_of os' w' c = Win.result_of os w c ->
          Win.returned (Win.SendInput os' cInputs pInputs cbSize w') = Win.returned o).
Proof.
  intros os w cInputs pInputs cbSize c o.
  assert (R : forall os1 w1, Win.returned (Win.SendInput os1 cInputs pInputs cbSize w1)
                             = Some (Win.result_of os1 w1 c)).
  { intros os1 w1. rewrite SendInput_run. cbv zeta. fold c.
    destruct (Z.eqb_spec (Win.result_of os1 w1 c) 0) as [E|E]; simpl;
      [rewrite E|]; reflexivity. }
  subst o. rewrite R. repeat split.
  - intros H. injection H as H. exact H.
  - intros H. rewrite H. reflexivity.
  - rewrite SendInput_run. cbv zeta. fold c. unfold Win.new_lines.
    destruct (Win.result_of os w c =? 0); simpl.
    + apply skipn_own_length.
    + apply skipn_all.
  - intros os' w' H. rewrite R, H. reflexivity.
Qed.

(** A refused submission (error 5) and a submission of which nothing was
    accepted look the same to the caller. *)
Lemma SendInput_zero_exactly_on_zero_witness :
  Win.returned (Win.SendInput (constant_os {| Win.r1 := 0; Win.r2 := 0; Win.lastErr := 5 |})
                  1 keyboard_input 40 Win.fresh)
  = Win.returned (Win.SendInput (constant_os {| Win.r1 := 0; Win.r2 := 0; Win.lastErr := 0 |})
                    1 keyboard_input 40 Win.fresh).
Proof.
  exact (proj2 (proj2 (proj2 (SendInput_zero_exactly_on_zero
    (constant_os {| Win.r1 := 0; Win.r2 := 0; Win.lastErr := 0 |}) Win.fresh 1 keyboard_input 40)))
    (constant_os {| Win.r1 := 0; Win.r2 := 0; Win.lastErr := 5 |}) Win.fresh eq_refl).
Defined.

(* ===================================================================== *)
(** ** Properties of the key-event constructors *)
(* ===================================================================== *)

(** C8. For Shift, Ctrl and Alt alike, the key-down constructor yields a
    keyboard input with the key's virtual key code and without the key-up
    flag (every other field is zero), and the key-up constructor yields the
    same value with [DwFlags] set to [KEYEVENTF_KEYUP]. *)
Theorem modifier_constructors_down_and_up :
  forall m : Keys.modifier,
    let down := Keys.key_down m in
    let up := Keys.key_up m in
    Keys.InputType down = Win.INPUT_KEYBOARD
    /\ Win.WVk (Keys.Ki down) = Keys.vk_of m
    /\ Keys.has_keyup_flag (Win.DwFlags (Keys.Ki down)) = false
    /\ down = {| Keys.InputType := Win.INPUT_KEYBOARD;
                 Keys.Ki := {| Win.WVk := Keys.vk_of m; Win.WScan := 0; Win.DwFlags := 0;
                               Win.Time := 0; Win.DwExtraInfo := 0 |};
                 Keys.Padding := 0 |}
    /\ up = Keys.set_DwFlags Win.KEYEVENTF_KEYUP down
    /\ Win.DwFlags (Keys.Ki up) = Win.KEYEVENTF_KEYUP
    /\ Keys.InputType up = Keys.InputType down
    /\ Win.WVk (Keys.Ki up) = Win.WVk (Keys.Ki down)
    /\ Win.WScan (Keys.Ki up) = Win.WScan (Keys.Ki down)
    /\ Win.Time (Keys.Ki up) = Win.Time (Keys.Ki down)
    /\ Win.DwExtraInfo (Keys.Ki up) = Win.DwExtraInfo (Keys.Ki down)
    /\ Keys.Padding up = Keys.Padding down.
Proof.
  intros m. destruct m; cbv zeta; repeat split; reflexivity.
Qed.

(** Two input values that agree outside [DwFlags] become equal once their
    flags are set to the same word. *)
Lemma set_DwFlags_twice (f g : Z) (t : Keys.TagINPUT) :
  Keys.set_DwFlags f (Keys.set_DwFlags g t) = Keys.set_DwFlags f t.
Proof. reflexivity. Qed.

(** The arrow constructors are key-down events of their keys. *)
Lemma arrow_constructors :
  map (fun t => (Keys.InputType t, Win.WVk (Keys.Ki t), Win.DwFlags (Keys.Ki t)))
      [Keys.tagInputLeftArrowDown; Keys.tagInputUpArrowDown;
       Keys.tagInputRightArrowDown; Keys.tagInputDownnArrowDown]
  = [(1, 0x25, 0); (1, 0x26, 0); (1, 0x27, 0); (1, 0x28, 0)].
Proof. reflexivity. Qed.

(* ===================================================================== *)
(** ** Properties of the management page *)
(* ===================================================================== *)

Local Open Scope list_scope.

Section PanelFacts.

Import Panel.

Variable rendered : string -> list card.

Lemma sent_sendCommand (k o d : string) (p : page) :
  sent (sendCommand k o d p) = sent p ++ [{| kind := k; operation := o; data := d |}].
Proof. reflexivity. Qed.



Lemma sent_submitModalNewCommand (draw : nat) (t d c o : string) (p : page) :
  sent (submitModalNewCommand rendered draw t d c o p) = sent p.
Proof. reflexivity. Qed.

Lemma cards_submitModalNewCommand (draw : nat) (t d c o : string) (p : page) :
  cards (submitModalNewCommand rendered draw t d c o p)
  = cards p ++ rendered (newcard (nth draw cardColors "undefined"%string) t d c o).
Proof.
  unfold submitModalNewCommand. cbn [cards].
  destruct (rev (cards p)); reflexivity.
Qed.

(** [validateModal] by the title of the form. *)
Lemma validateModal_empty_title (draw : nat) (p : page) :
  title (form p) = ""%string ->
  validateModal rendered draw p = (Some false, focus p).
Proof.
  intros H. unfold validateModal. rewrite H. reflexivity.
Qed.

Lemma validateModal_titled (draw : nat) (p : page) :
  title (form p) <> ""%string ->
  fst (validateModal rendered draw p) = None
  /\ sent (snd (validateModal rendered draw p))
     = sent p ++ [tagged (WriteOf (title (form p)) (description (form p))
                                   (command (form p)) (output (form p)))].
Proof.
  intros H. unfold validateModal.
  destruct (String.eqb_spec (title (form p)) ""%string) as [E|_]; [contradiction|].
  split; reflexivity.
Qed.

Lemma sent_handle (e : event) (p : page) :
  sent (handle rendered e p)
  = sent p ++ match mutation_of e p with
              | Some pl => [tagged pl]
              | None => []
              end.
Proof.
  destruct e as [|draw|draw|i]; cbn [handle mutation_of].
  - cbn. symmetry. apply app_nil_r.
  - destruct (String.eqb_spec (title (form p)) ""%string) as [E|E].
    + rewrite (validateModal_empty_title draw p E). cbn. symmetry. apply app_nil_r.
    + apply validateModal_titled. exact E.
  - destruct (String.eqb_spec (title (form p)) ""%string) as [E|E].
    + rewrite (validateModal_empty_title draw p E). cbn. symmetry. apply app_nil_r.
    + apply validateModal_titled. exact E.
  - unfold onDeleteClick. destruct (nth_error (cards p) i) as [c|].
    + reflexivity.
    + symmetry. apply app_nil_r.
Qed.

End PanelFacts.



(** C7, as stated, does not hold: a form with a title and an empty command
    field is sent. *)
Lemma empty_trigger_is_sent :
  ~ (forall (rendered : string -> list Panel.card) (draw : nat) (p : Panel.page),
       Panel.command (Panel.form p) = ""%string ->
       Panel.new_messages p (snd (Panel.validateModal rendered draw p)) = []).
Proof.
  intros H.
  specialize (H blank_browser 0%nat
    {| Panel.sent := []; Panel.cards := []; Panel.modal_active := true;
       Panel.form := {| Panel.title := "Greeting"; Panel.description := "";
                        Panel.command := ""; Panel.output := "hello" |};
       Panel.form_focused := false |} eq_refl).
  discriminate H.
Qed.

(** C7, amended. The write path rejects a command whose title is empty:
    nothing is sent and no card is added. A command with a title is sent
    with the four fields of the form, whatever its trigger text. *)
Theorem write_path_rejects_empty_title :
  forall (rendered : string -> list Panel.card) (draw : nat) (p : Panel.page),
    (Panel.title (Panel.form p) = ""%string ->
       fst (Panel.validateModal rendered draw p) = Some false
       /\ Panel.new_messages p (snd (Panel.validateModal rendered draw p)) = []
       /\ Panel.cards (snd (Panel.validateModal rendered draw p)) = Panel.cards p)
    /\ (Panel.title (Panel.form p) <> ""%string ->
       Panel.new_messages p (snd (Panel.validateModal rendered draw p))
       = [Panel.tagged (Panel.WriteOf (Panel.title (Panel.form p))
                                      (Panel.description (Panel.form p))
                                      (Panel.command (Panel.form p))
                                      (Panel.output (Panel.form p)))]).
Proof.
  intros rendered draw p. split.
  - intros H. rewrite (validateModal_empty_title rendered draw p H).
    cbn [fst snd]. unfold Panel.new_messages, Panel.focus. cbn [Panel.sent Panel.cards].
    repeat split. apply skipn_all.
  - intros H. unfold Panel.new_messages.
    rewrite (proj2 (validateModal_titled rendered draw p H)).
    apply skipn_own_length.
Qed.

(** An untitled form is rejected even though its trigger is filled in. *)
Lemma write_path_rejects_empty_title_witness :
  let p := {| Panel.sent := []; Panel.cards := []; Panel.modal_active := true;
              Panel.form := {| Panel.title := ""; Panel.description := "";
                               Panel.command := "hi"; Panel.output := "hello" |};
              Panel.form_focused := false |} in
  Panel.new_messages p (snd (Panel.validateModal blank_browser 0 p)) = [].
Proof.
  cbv zeta.
  exact (proj1 (proj2 (proj1 (write_path_rejects_empty_title blank_browser 0%nat
    {| Panel.sent := []; Panel.cards := []; Panel.modal_active := true;
       Panel.form := {| Panel.title := ""; Panel.description := "";
                        Panel.command := "hi"; Panel.output := "hello" |};
       Panel.form_focused := false |}) eq_refl))).
Defined.

(* ===================================================================== *)
(** ** Properties of the Trigger Matcher *)
(* ===================================================================== *)

Section MatcherFacts.

Import Matcher.

Variable max_length : nat.
Variable translate : Z -> ModifierState -> option ascii.
Variable key_for : ascii -> option (Z * bool).

Lemma step_synthetic (reg : Registry) (st : State) (ev : KeystrokeEvent) :
  synthetic ev -> step max_length translate reg st ev = (st, None).
Proof.
  unfold synthetic, step. intros H. rewrite H. reflexivity.
Qed.

Lemma run_synthetic (reg : Registry) (st : State) (evs : list KeystrokeEvent) :
  Forall synthetic evs -> run max_length translate reg st evs = (st, []).
Proof.
  induction 1 as [|ev evs Hev _ IH]; [reflexivity|].
  cbn [run]. rewrite (step_synthetic reg st ev Hev), IH. reflexivity.
Qed.

Lemma press_synthetic (vk : Z) (snapshot : ModifierState) :
  Forall synthetic (press vk snapshot).
Proof. repeat constructor. Qed.

Lemma chord_synthetic (c : ascii) : Forall synthetic (chord key_for c).
Proof.
  unfold chord. destruct (key_for c) as [[vk [|]]|].
  - constructor; [reflexivity|]. apply Forall_app. split.
    + apply press_synthetic.
    + repeat constructor.
  - apply press_synthetic.
  - constructor.
Qed.

Lemma backspaces_synthetic (n : nat) : Forall synthetic (backspaces n).
Proof.
  induction n as [|n IH]; cbn [backspaces]; [constructor|].
  apply Forall_app. split; [apply press_synthetic | exact IH].
Qed.

Lemma typed_synthetic (o : string) : Forall synthetic (typed key_for o).
Proof.
  induction o as [|c o IH]; cbn [typed]; [constructor|].
  apply Forall_app. split; [apply chord_synthetic | exact IH].
Qed.

Lemma replay_synthetic (cmd : Command) : Forall synthetic (replay key_for cmd).
Proof.
  unfold replay. apply Forall_app. split;
    [apply backspaces_synthetic | apply typed_synthetic].
Qed.

End MatcherFacts.

(** C2. The Trigger Matcher ignores every event flagged synthetic: its
    buffer and modifier state stay as they are and no match fires. So a
    whole sequence of synthetic events, and in particular everything the
    Expansion Replayer emits for a command, leaves the matcher where it was
    and fires nothing, whatever trigger strings the output contains. *)
Theorem synthetic_events_never_reach_the_buffer :
  forall (max_length : nat) (translate : Z -> Matcher.ModifierState -> option ascii)
         (key_for : ascii -> option (Z * bool))
         (reg : Matcher.Registry) (st : Matcher.State),
    (forall ev, Matcher.syntheticFlag ev = true ->
        Matcher.buffer (fst (Matcher.step max_length translate reg st ev)) = Matcher.buffer st
        /\ Matcher.step max_length translate reg st ev = (st, None))
    /\ (forall evs, Forall Matcher.synthetic evs ->
        Matcher.run max_length translate reg st evs = (st, []))
    /\ (forall cmd,
        Matcher.run max_length translate reg st (Matcher.replay key_for cmd) = (st, [])).
Proof.
  intros max_length translate key_for reg st. split; [|split].
  - intros ev H. rewrite (step_synthetic max_length translate reg st ev H).
    split; reflexivity.
  - intros evs H. apply run_synthetic. exact H.
  - intros cmd. apply run_synthetic. apply replay_synthetic.
Qed.

(** The replay of a command whose output contains its trigger fires nothing
    while the command is registered. *)
Lemma synthetic_events_never_reach_the_buffer_witness :
  Matcher.run 8 letters_translate [btw] idle (Matcher.replay letters_key_for btw)
  = (idle, []).
Proof.
  exact (proj2 (proj2 (synthetic_events_never_reach_the_buffer
                         8%nat letters_translate letters_key_for [btw] idle)) btw).
Defined.

(** The synthetic mark is what keeps the replay out: the same keys, pressed
    by the user, fire the command again. *)
Example replayed_keys_would_fire_if_real :
  snd (Matcher.run 8 letters_translate [btw] idle
         (map Matcher.as_real (Matcher.replay letters_key_for btw)))
  = [btw].
Proof. vm_compute. reflexivity. Qed.

(** Typing the trigger fires the command and clears the consumed part of
    the buffer. *)
Example typed_trigger_fires :
  Matcher.run 8 letters_translate [btw] idle
    (map Matcher.as_real (Matcher.typed letters_key_for "xbtw"))
  = ({| Matcher.buffer := "x"; Matcher.modifiers := Matcher.no_modifiers |}, [btw]).
Proof. vm_compute. reflexivity. Qed.

(* ===================================================================== *)
(** ** Further properties of the wrappers *)
(* ===================================================================== *)

Lemma to_signed_16_range (z : Z) : -32768 <= Win.to_signed 16 z < 32768.
Proof.
  unfold Win.to_signed, Win.to_unsigned. cbv zeta.
  change (2 ^ 16) with 65536. change (2 ^ (16 - 1)) with 32768.
  pose proof (Z.mod_pos_bound z 65536 ltac:(lia)).
  destruct (Z.ltb_spec (z mod 65536) 32768); lia.
Qed.

Lemma to_signed_16_negative (z : Z) :
  Win.to_signed 16 z < 0 <-> Z.testbit z 15 = true.
Proof.
  rewrite Z.testbit_true by lia.
  unfold Win.to_signed, Win.to_unsigned. cbv zeta.
  change (2 ^ 16) with 65536. change (2 ^ (16 - 1)) with 32768. change (2 ^ 15) with 32768.
  destruct (Z.ltb_spec (z mod 65536) 32768); Z.div_mod_to_equations; lia.
Qed.

(** X1. [SetWindowsHookExW] hands the system's result back as the handle,
    null or not: one system call, no log line, no panic. *)
Theorem SetWindowsHookExW_passes_the_handle_through :
  forall (os : Win.OS) (w : Win.World) (idHook : Z) (lpfn : Win.HOOKPROC) (hmod dwThreadID : Z),
    let c := Win.SetWindowsHookExW_call idHook lpfn hmod dwThreadID in
    let o := Win.SetWindowsHookExW os idHook lpfn hmod dwThreadID w in
    Win.returned o = Some (Win.result_of os w c)
    /\ Win.new_calls w o = [c]
    /\ Win.new_lines w o = [].
Proof.
  intros os w idHook lpfn hmod dwThreadID c o. subst o c.
  rewrite SetWindowsHookExW_run. cbv zeta.
  unfold Win.new_calls, Win.new_lines. simpl.
  split; [reflexivity|]. split; [apply skipn_own_length | apply skipn_all].
Qed.

(** X2. [GetKeyState] returns the low 16 bits of the system's result as a
    signed number: it lies in the range of an int16, and it is negative
    exactly when bit 15 of the result, the key-is-down bit, is set. *)
Theorem GetKeyState_sign_is_the_high_bit :
  forall (os : Win.OS) (w : Win.World) (nVirtKey : Z),
    let c := Win.GetKeyState_call nVirtKey in
    exists v,
      Win.returned (Win.GetKeyState os nVirtKey w) = Some v
      /\ -32768 <= v < 32768
      /\ (v < 0 <-> Z.testbit (Win.result_of os w c) 15 = true).
Proof.
  intros os w nVirtKey c. exists (Win.SHORT (Win.result_of os w c)).
  split; [reflexivity|]. split.
  - apply to_signed_16_range.
  - apply to_signed_16_negative.
Qed.

(** X3. When user32.dll loads, [LoadDLLs] returns and leaves the process
    state as it was. *)
Theorem LoadDLLs_returns_after_loading :
  forall (os : Win.OS) (w : Win.World),
    Win.load os Win.winDLLUser32 = None ->
    Win.LoadDLLs os w = Win.Returns tt w.
Proof.
  intros os w H. apply LoadDLLs_returns_when_loaded. exact H.
Qed.

Lemma LoadDLLs_returns_after_loading_witness :
  Win.LoadDLLs (constant_os {| Win.r1 := 1; Win.r2 := 0; Win.lastErr := 0 |}) Win.fresh
  = Win.Returns tt Win.fresh.
Proof.
  exact (LoadDLLs_returns_after_loading
           (constant_os {| Win.r1 := 1; Win.r2 := 0; Win.lastErr := 0 |}) Win.fresh eq_refl).
Defined.

(** X4. When the system call succeeds (a first result other than zero),
    [UnhookWindowsHookEx] returns true and logs nothing. *)
Theorem UnhookWindowsHookEx_true_without_log :
  forall (os : Win.OS) (w : Win.World) (hhk : Z),
    let c := Win.UnhookWindowsHookEx_call hhk in
    Win.result_of os w c <> 0 ->
    Win.UnhookWindowsHookEx os hhk w
    = Win.Returns true {| Win.calls := Win.calls w ++ [c]; Win.logged := Win.logged w |}.
Proof.
  intros os w hhk c H. subst c. rewrite UnhookWindowsHookEx_run. cbv zeta.
  destruct (Z.eqb_spec (Win.result_of os w (Win.UnhookWindowsHookEx_call hhk)) 0) as [E|_];
    [contradiction | reflexivity].
Qed.

Lemma UnhookWindowsHookEx_true_without_log_witness :
  Win.returned (Win.UnhookWindowsHookEx
                  (constant_os {| Win.r1 := 1; Win.r2 := 0; Win.lastErr := 0 |}) 7 Win.fresh)
  = Some true.
Proof.
  rewrite (UnhookWindowsHookEx_true_without_log
             (constant_os {| Win.r1 := 1; Win.r2 := 0; Win.lastErr := 0 |}) Win.fresh 7).
  - reflexivity.
  - vm_compute. discriminate.
Defined.

(** [CallNextHookEx] forwards its four arguments in one system call and
    returns the result read as a signed 64-bit number; it logs nothing. *)
Lemma CallNextHookEx_forwards :
  forall (os : Win.OS) (w : Win.World) (hhk nCode wParam lParam : Z),
    let c := Win.CallNextHookEx_call hhk nCode wParam lParam in
    Win.CallNextHookEx os hhk nCode wParam lParam w
    = Win.Returns (Win.LRESULT (Win.result_of os w c))
        {| Win.calls := Win.calls w ++ [c]; Win.logged := Win.logged w |}.
Proof. reflexivity. Qed.

(* ===================================================================== *)
(** ** Further properties of the management page *)
(* ===================================================================== *)

Section JsonFacts.

Import Panel.
Local Open Scope string_scope.

Lemma string_app_assoc (a b c : string) : (a ++ b) ++ c = a ++ (b ++ c).
Proof.
  induction a as [|x a IH]; simpl; [reflexivity | rewrite IH; reflexivity].
Qed.

Lemma string_app_inv_head (p x y : string) : p ++ x = p ++ y -> x = y.
Proof.
  induction p as [|a p IH]; simpl; intros H; [exact H|].
  injection H as H. exact (IH H).
Qed.

(** Reading back what [escape_code_unit] wrote gives the code unit. *)
Lemma read_code_unit_escape (c : ascii) (r : string) :
  read_code_unit (escape_code_unit c ++ r) = Some (c, r).
Proof.
  destruct c as [[] [] [] [] [] [] [] []]; reflexivity.
Qed.

Lemma escape_code_units_inj (s : string) :
  forall s' r r',
    escape_code_units s ++ String dquote r = escape_code_units s' ++ String dquote r' ->
    s = s' /\ r = r'.
Proof.
  induction s as [|c s IH]; intros [|c' s'] r r' H; cbn [escape_code_units] in H.
  - simpl in H. injection H as H. split; [reflexivity | exact H].
  - apply (f_equal read_code_unit) in H.
    rewrite string_app_assoc, read_code_unit_escape in H. discriminate H.
  - apply (f_equal read_code_unit) in H.
    rewrite string_app_assoc, read_code_unit_escape in H. discriminate H.
  - apply (f_equal read_code_unit) in H.
    rewrite !string_app_assoc, !read_code_unit_escape in H.
    injection H as Hc Hrest. destruct (IH _ _ _ Hrest) as [-> ->]. subst c'.
    split; reflexivity.
Qed.

Lemma QuoteJSONString_inj (s s' r r' : string) :
  QuoteJSONString s ++ r = QuoteJSONString s' ++ r' -> s = s' /\ r = r'.
Proof.
  unfold QuoteJSONString. cbn [append]. rewrite !string_app_assoc. cbn [append].
  intros H. injection H as H. apply escape_code_units_inj. exact H.
Qed.

End JsonFacts.

(** X5. The data of a write message determines the four fields: two
    commands with the same JSON text have the same title, description,
    trigger and output. *)
Theorem serialized_fields_determine_the_command :
  forall t d c o t' d' c' o' : string,
    Panel.serialized_fields t d c o = Panel.serialized_fields t' d' c' o' ->
    t = t' /\ d = d' /\ c = c' /\ o = o'.
Proof.
  intros t d c o t' d' c' o'.
  unfold Panel.serialized_fields, Panel.JSON_stringify, Panel.SerializeJSONProperty.
  cbn [map String.concat fst snd].
  rewrite !string_app_assoc. intros H.
  do 3 apply string_app_inv_head in H.
  apply QuoteJSONString_inj in H. destruct H as [-> H].
  do 3 apply string_app_inv_head in H.
  apply QuoteJSONString_inj in H. destruct H as [-> H].
  do 3 apply string_app_inv_head in H.
  apply QuoteJSONString_inj in H. destruct H as [-> H].
  do 3 apply string_app_inv_head in H.
  apply QuoteJSONString_inj in H. destruct H as [-> _].
  repeat split.
Qed.

Lemma serialized_fields_determine_the_command_witness :
  "Greeting"%string = "Greeting"%string /\ ""%string = ""%string
  /\ "hi"%string = "hi"%string /\ "hello"%string = "hello"%string.
Proof.
  exact (serialized_fields_determine_the_command
           "Greeting" "" "hi" "hello" "Greeting" "" "hi" "hello" eq_refl).
Defined.


(* ===================================================================== *)
(** ** The wrappers in sequence and their conversions *)
(* ===================================================================== *)

Section ApiFacts.

Import Win Api.

Variable os : OS.

Lemma world_without_new_lines (cs : list Syscall) (ls : list LogLine) :
  {| calls := cs; logged := ls |} = {| calls := cs; logged := ls ++ [] |}.
Proof. rewrite app_nil_r. reflexivity. Qed.

Lemma Number_failure_SendInput (a : Z) (b : LPINPUT) (c z : Z) :
  z <> 0 -> is_failure_value (DoSendInput a b c) (Number z) = false.
Proof. intros H. destruct z; [contradiction | reflexivity | reflexivity]. Qed.

(** One invocation: it returns, after one system call and at most one log
    line, which is written exactly when the failure value is returned. *)
Lemma invoke_run (i : invocation) (w : World) :
  exists v,
    invoke os i w
    = Returns v {| calls := calls w ++ [call_of i];
                   logged := logged w ++ line_of os (calls w) i |}
    /\ map (fun l => Some (prefix l)) (line_of os (calls w) i)
       = (if is_failure_value i v then [error_prefix i] else []).
Proof.
  destruct i as [hhk nCode wParam lParam | idHook lpfn hmod tid | hhk
                | lpMsg hWnd mn mx | cInputs pInputs cbSize | nVirtKey];
    unfold invoke, bind, line_of; cbn [call_of error_prefix].
  - eexists. split; [rewrite <- world_without_new_lines; reflexivity | reflexivity].
  - rewrite SetWindowsHookExW_run. cbv zeta.
    eexists. split; [rewrite <- world_without_new_lines; reflexivity | reflexivity].
  - rewrite UnhookWindowsHookEx_run. cbv zeta. unfold result_of, error_of.
    destruct (uintptr (r1 (reply os (calls w) (UnhookWindowsHookEx_call hhk))) =? 0).
    + eexists. split; reflexivity.
    + eexists. split; [rewrite <- world_without_new_lines; reflexivity | reflexivity].
  - rewrite GetMessageW_run. cbv zeta. unfold result_of, error_of.
    destruct (uintptr (r1 (reply os (calls w) (GetMessageW_call lpMsg hWnd mn mx))) =? 0).
    + eexists. split; reflexivity.
    + eexists. split; [rewrite <- world_without_new_lines; reflexivity | reflexivity].
  - rewrite SendInput_run. cbv zeta. unfold result_of, error_of.
    destruct (Z.eqb_spec (uintptr (r1 (reply os (calls w)
                (SendInput_call cInputs pInputs cbSize)))) 0) as [E|E].
    + eexists. split; reflexivity.
    + eexists. split; [rewrite <- world_without_new_lines; reflexivity|].
      rewrite (Number_failure_SendInput cInputs pInputs cbSize _ E). reflexivity.
  - eexists. split; [rewrite <- world_without_new_lines; reflexivity | reflexivity].
Qed.

Lemma line_of_prefixes (cs : list Syscall) (i : invocation) :
  Forall (fun l => In (prefix l) log_prefixes) (line_of os cs i).
Proof.
  unfold line_of.
  destruct i; cbn [error_prefix]; try constructor;
    (destruct (_ =? 0); [constructor; [simpl; auto | constructor] | constructor]).
Qed.

Lemma invoke_all_run (invs : list invocation) :
  forall w : World,
  exists vs,
    invoke_all os invs w
    = Returns vs {| calls := calls w ++ map call_of invs;
                    logged := logged w ++ expected_log os (calls w) invs |}
    /\ List.length vs = List.length invs
    /\ List.length (expected_log os (calls w) invs) = failures invs vs
    /\ map (fun l => Some (prefix l)) (expected_log os (calls w) invs)
       = failure_prefixes invs vs
    /\ Forall (fun l => In (prefix l) log_prefixes) (expected_log os (calls w) invs).
Proof.
  induction invs as [|i rest IH]; intros w.
  - exists []. cbn. rewrite !app_nil_r. destruct w. repeat split. constructor.
  - destruct (invoke_run i w) as (v & E1 & P1).
    cbn [invoke_all]. unfold bind at 1. rewrite E1.
    destruct (IH {| calls := calls w ++ [call_of i];
                    logged := logged w ++ line_of os (calls w) i |})
      as (vs & E2 & N2 & L2 & Q2 & F2).
    unfold bind at 1. rewrite E2. cbn [calls logged] in *.
    exists (v :: vs). cbn [expected_log failures failure_prefixes].
    split; [|split; [|split; [|split]]].
    + unfold ret. rewrite <- !app_assoc. reflexivity.
    + cbn. rewrite N2. reflexivity.
    + rewrite length_app, L2. f_equal.
      rewrite <- (length_map (fun l => Some (prefix l))), P1.
      destruct (is_failure_value i v); reflexivity.
    + rewrite map_app, P1, Q2. reflexivity.
    + apply Forall_app. split; [apply line_of_prefixes | exact F2].
Qed.

End ApiFacts.

(** X8. Any sequence of wrapper invocations runs to its end without panic.
    It makes exactly one system call per invocation, in order, after the
    calls made before. It keeps the earlier log lines and adds exactly the
    lines of [Api.expected_log]: one line for each checked wrapper whose
    call came back with a zero first result, under that wrapper's own
    prefix and with the error the system reported for that call. These are
    the invocations that returned their failure value (false for
    UnhookWindowsHookEx and GetMessageW, 0 for SendInput), in order. *)
Theorem wrappers_in_sequence :
  forall (os : Win.OS) (invs : list Api.invocation) (w : Win.World),
  exists vs lines,
    Api.invoke_all os invs w
    = Win.Returns vs {| Win.calls := Win.calls w ++ map Api.call_of invs;
                        Win.logged := Win.logged w ++ lines |}
    /\ List.length vs = List.length invs
    /\ List.length lines = Api.failures invs vs
    /\ Forall (fun l => In (Win.prefix l) Api.log_prefixes) lines
    /\ lines = Api.expected_log os (Win.calls w) invs
    /\ map (fun l => Some (Win.prefix l)) lines = Api.failure_prefixes invs vs.
Proof.
  intros os invs w.
  destruct (invoke_all_run os invs w) as (vs & E & N & L & Q & F).
  exists vs, (Api.expected_log os (Win.calls w) invs).
  repeat split; assumption.
Qed.

Lemma to_signed_64_range (z : Z) : - 2 ^ 63 <= Win.to_signed 64 z < 2 ^ 63.
Proof.
  unfold Win.to_signed, Win.to_unsigned. cbv zeta.
  change (64 - 1) with 63.
  pose proof (Z.mod_pos_bound z (2 ^ 64) ltac:(lia)).
  destruct (Z.ltb_spec (z mod 2 ^ 64) (2 ^ 63)); lia.
Qed.

Lemma to_unsigned_to_signed (bits z : Z) :
  0 < bits -> Win.to_unsigned bits (Win.to_signed bits z) = Win.to_unsigned bits z.
Proof.
  intros Hb. unfold Win.to_signed, Win.to_unsigned. cbv zeta.
  assert (0 < 2 ^ bits) by (apply Z.pow_pos_nonneg; lia).
  destruct (z mod 2 ^ bits <? 2 ^ (bits - 1)).
  - apply Z.mod_mod. lia.
  - replace (z mod 2 ^ bits - 2 ^ bits) with (z mod 2 ^ bits + (-1) * 2 ^ bits) by lia.
    rewrite Z.mod_add by lia. apply Z.mod_mod. lia.
Qed.

Lemma to_signed_64_of_int (n : Z) :
  - 2 ^ 63 <= n < 2 ^ 63 -> Win.to_signed 64 (Win.to_unsigned 64 n) = n.
Proof.
  intros H. unfold Win.to_signed, Win.to_unsigned. cbv zeta.
  change (64 - 1) with 63. rewrite Z.mod_mod by lia.
  destruct (Z.ltb_spec (n mod 2 ^ 64) (2 ^ 63)) as [L|L];
    Z.div_mod_to_equations; lia.
Qed.

Lemma SHORT_keeps_low_bits (z i : Z) :
  0 <= i < 16 -> Z.testbit (Win.SHORT z) i = Z.testbit z i.
Proof.
  intros H. unfold Win.SHORT.
  rewrite <- (Z.mod_pow2_bits_low (Win.to_signed 16 z) 16 i) by lia.
  change (Win.to_signed 16 z mod 2 ^ 16) with (Win.to_unsigned 16 (Win.to_signed 16 z)).
  rewrite to_unsigned_to_signed by lia.
  unfold Win.to_unsigned. apply Z.mod_pow2_bits_low. lia.
Qed.

(** X9. [CallNextHookEx] returns the 64-bit word of the system's result
    read as a signed number: the value is in the range of an int64 and has
    the same bit pattern as the result, so a result that is in that range
    comes back as it is; and a hook code in that range, negative ones
    included, reaches the system as a word whose signed reading is the hook
    code. *)
Theorem CallNextHookEx_keeps_the_word :
  forall (os : Win.OS) (w : Win.World) (hhk nCode wParam lParam : Z),
    let c := Win.CallNextHookEx_call hhk nCode wParam lParam in
    exists v,
      Win.returned (Win.CallNextHookEx os hhk nCode wParam lParam w) = Some v
      /\ - 2 ^ 63 <= v < 2 ^ 63
      /\ Win.uintptr v = Win.result_of os w c
      /\ (- 2 ^ 63 <= Win.r1 (Win.reply os (Win.calls w) c) < 2 ^ 63 ->
          v = Win.r1 (Win.reply os (Win.calls w) c))
      /\ (- 2 ^ 63 <= nCode < 2 ^ 63 ->
          exists word, nth_error (Win.args c) 1 = Some (Win.Word word)
                       /\ Win.to_signed 64 word = nCode).
Proof.
  intros os w hhk nCode wParam lParam c.
  exists (Win.LRESULT (Win.result_of os w c)).
  split; [reflexivity|]. split; [apply to_signed_64_range|]. split; [|split].
  - unfold Win.LRESULT. unfold Win.uintptr at 1. unfold Win.word_bits.
    rewrite to_unsigned_to_signed by lia. apply uintptr_idem.
  - intros H. unfold Win.LRESULT, Win.result_of. apply to_signed_64_of_int. exact H.
  - intros H. exists (Win.uintptr nCode). split; [reflexivity|].
    apply to_signed_64_of_int. exact H.
Qed.

(** X10. [GetKeyState] keeps bits 0 to 15 of the system's result: the value
    is odd exactly when bit 0, the toggle bit, is set, and it depends on the
    low 16 bits of the result only. *)
Theorem GetKeyState_keeps_the_state_bits :
  forall (os : Win.OS) (w : Win.World) (nVirtKey : Z),
    let c := Win.GetKeyState_call nVirtKey in
    exists v,
      Win.returned (Win.GetKeyState os nVirtKey w) = Some v
      /\ (forall i, 0 <= i < 16 -> Z.testbit v i = Z.testbit (Win.result_of os w c) i)
      /\ Z.odd v = Z.testbit (Win.result_of os w c) 0
      /\ (forall os' w', Z.land (Win.result_of os' w' c) 0xFFFF = Z.land (Win.result_of os w c) 0xFFFF ->
            Win.returned (Win.GetKeyState os' nVirtKey w') = Some v).
Proof.
  intros os w nVirtKey c. exists (Win.SHORT (Win.result_of os w c)).
  split; [reflexivity|]. split; [|split].
  - intros i H. apply SHORT_keeps_low_bits. exact H.
  - rewrite <- Z.bit0_odd. apply SHORT_keeps_low_bits. lia.
  - intros os' w' H.
    change (Win.returned (Win.GetKeyState os' nVirtKey w'))
      with (Some (Win.SHORT (Win.result_of os' w' c))).
    f_equal.
    change 0xFFFF with (Z.ones 16) in H. rewrite !Z.land_ones in H by lia.
    unfold Win.SHORT, Win.to_signed, Win.to_unsigned. cbv zeta.
    rewrite H. reflexivity.
Qed.

(** X11. A handle returned by [SetWindowsHookExW] is the system's result, a
    word below 2^64, and the wrappers hand it back to the system as that
    same word: called with the handle, in whatever state of the process,
    [UnhookWindowsHookEx] makes one system call whose argument is the word
    the system had returned, and [CallNextHookEx] one whose first argument
    is that word. *)
Theorem hook_handle_reaches_the_system_unchanged :
  forall (os : Win.OS) (w : Win.World) (idHook : Z) (lpfn : Win.HOOKPROC)
         (hmod dwThreadID handle : Z),
    Win.returned (Win.SetWindowsHookExW os idHook lpfn hmod dwThreadID w) = Some handle ->
    let word := Win.result_of os w (Win.SetWindowsHookExW_call idHook lpfn hmod dwThreadID) in
    handle = word
    /\ 0 <= handle < 2 ^ 64
    /\ (forall w' : Win.World,
          Win.new_calls w' (Win.UnhookWindowsHookEx os handle w')
          = [{| Win.proc := Win.winDLLUser32_ProcUnhookWindowsHookEx;
                Win.args := [Win.Word word] |}])
    /\ (forall (w' : Win.World) (nCode wParam lParam : Z),
          Win.new_calls w' (Win.CallNextHookEx os handle nCode wParam lParam w')
          = [{| Win.proc := Win.winDLLUser32_ProcCallNextHookEx;
                Win.args := [Win.Word word; Win.Word (Win.uintptr nCode);
                             Win.Word (Win.uintptr wParam); Win.Word (Win.uintptr lParam)] |}]).
Proof.
  intros os w idHook lpfn hmod dwThreadID handle H word.
  rewrite SetWindowsHookExW_run in H. cbv zeta in H. cbn in H. injection H as <-.
  fold word. split; [reflexivity|]. split; [apply uintptr_range|].
  assert (U : Win.uintptr word = word) by apply uintptr_idem.
  split.
  - intros w'. rewrite UnhookWindowsHookEx_run. cbv zeta. unfold Win.new_calls.
    destruct (_ =? 0); cbn [Win.world_of Win.calls]; rewrite skipn_own_length;
      unfold Win.UnhookWindowsHookEx_call; rewrite U; reflexivity.
  - intros w' nCode wParam lParam. rewrite CallNextHookEx_forwards. cbv zeta.
    unfold Win.new_calls. cbn [Win.world_of Win.calls]. rewrite skipn_own_length.
    unfold Win.CallNextHookEx_call. rewrite U. reflexivity.
Qed.

Lemma hook_handle_reaches_the_system_unchanged_witness :
  Win.new_calls Win.fresh
    (Win.UnhookWindowsHookEx
       (constant_os {| Win.r1 := 4242; Win.r2 := 0; Win.lastErr := 0 |}) 4242 Win.fresh)
  = [{| Win.proc := Win.winDLLUser32_ProcUnhookWindowsHookEx;
        Win.args := [Win.Word 4242] |}].
Proof.
  exact (proj1 (proj2 (proj2 (hook_handle_reaches_the_system_unchanged
    (constant_os {| Win.r1 := 4242; Win.r2 := 0; Win.lastErr := 0 |}) Win.fresh
    Win.WH_KEYBOARD_LL (fun _ _ _ => 0) 0 0 4242 eq_refl))) Win.fresh).
Defined.

(* ===================================================================== *)
(** ** The key-event constructors as a family *)
(* ===================================================================== *)

(** X12. The ten constructors return ten different events, so an event
    tells its key and its direction; each is a keyboard input whose scan
    code, time stamp, extra information and padding are zero. No key-down
    event of a modifier equals a key-up event, and different modifiers have
    different events. *)
Theorem constructors_are_distinct_key_events :
  NoDup all_constructors
  /\ Forall (fun t => Keys.InputType t = Win.INPUT_KEYBOARD
                      /\ Win.WScan (Keys.Ki t) = 0
                      /\ Win.Time (Keys.Ki t) = 0
                      /\ Win.DwExtraInfo (Keys.Ki t) = 0
                      /\ Keys.Padding t = 0) all_constructors
  /\ (forall m m' : Keys.modifier,
        Keys.key_down m = Keys.key_down m' \/ Keys.key_up m = Keys.key_up m' -> m = m')
  /\ (forall m m' : Keys.modifier, Keys.key_down m <> Keys.key_up m').
Proof.
  split; [|split; [|split]].
  - unfold all_constructors.
    repeat (constructor; [simpl; intuition discriminate|]). constructor.
  - unfold all_constructors. repeat constructor.
  - intros [] [] [H|H]; try reflexivity; discriminate H.
  - intros [] []; discriminate.
Qed.

(* ===================================================================== *)
(** ** The page in use *)
(* ===================================================================== *)

Section SessionFacts.

Import Panel Session.

Variable rendered : string -> list card.

Lemma nth_error_replace_nth {A} (l : list A) :
  forall i x, (i < List.length l)%nat -> nth_error (replace_nth i x l) i = Some x.
Proof.
  induction l as [|y l IH]; intros [|i] x H; cbn in *; try lia; try reflexivity.
  apply IH. lia.
Qed.

Lemma remove_replace_nth {A} (l : list A) :
  forall i x, remove_nth i (replace_nth i x l) = remove_nth i l.
Proof.
  induction l as [|y l IH]; intros [|i] x; cbn; try reflexivity.
  f_equal. apply IH.
Qed.

(** The page after [validateModal] on a form with a title. *)
Lemma validateModal_titled_page (draw : nat) (p : page) :
  title (form p) <> ""%string ->
  snd (validateModal rendered draw p)
  = {| sent := sent p ++ [tagged (WriteOf (title (form p)) (description (form p))
                                          (command (form p)) (output (form p)))];
       cards := cards p ++
                rendered (newcard (nth draw cardColors "undefined"%string)
                                  (title (form p)) (description (form p))
                                  (command (form p)) (output (form p)));
       modal_active := false;
       form := form p;
       form_focused := form_focused p |}.
Proof.
  intros H. unfold validateModal.
  destruct (String.eqb_spec (title (form p)) ""%string) as [E|_]; [contradiction|].
  cbn [snd]. unfold submitModalNewCommand, sendNewCommand, sendCommand, send.
  cbn [sent cards modal_active form form_focused].
  destruct (rev (cards p)); destruct (modal_active p); reflexivity.
Qed.

(** One interaction: what it sends. *)
Lemma interact_step (a : interaction) (p : page) :
  exists ms,
    sent (interact rendered a p) = sent p ++ ms
    /\ Forall is_mutation ms.
Proof.
  destruct a as [e|f|i h m c o]; cbn [interact].
  - rewrite sent_handle. destruct (mutation_of e p) as [[t d c o|t]|].
    + eexists [_]. split; [reflexivity|]. constructor; [|constructor].
      split; [reflexivity | left; reflexivity].
    + eexists [_]. split; [reflexivity|]. constructor; [|constructor].
      split; [reflexivity | right; reflexivity].
    + exists []. split; [reflexivity | constructor].
  - exists []. cbn. rewrite app_nil_r. split; [reflexivity | constructor].
  - unfold typeInCard. destruct (nth_error (cards p) i) as [c0|];
      exists []; cbn [sent]; rewrite app_nil_r; (split; [reflexivity | constructor]).
Qed.

Lemma session_steps (acts : list interaction) :
  forall p : page,
  exists ms,
    sent (session rendered acts p) = sent p ++ ms
    /\ Forall is_mutation ms.
Proof.
  induction acts as [|a rest IH]; intros p; cbn [session].
  - exists []. rewrite app_nil_r. split; [reflexivity | constructor].
  - destruct (interact_step a p) as (m1 & S1 & F1).
    destruct (IH (interact rendered a p)) as (m2 & S2 & F2).
    exists (m1 ++ m2). split.
    + rewrite S2, S1, app_assoc. reflexivity.
    + apply Forall_app. split; assumption.
Qed.

End SessionFacts.

(** X13. In any sequence of handler runs and user edits, the messages sent
    before stay as they are, and everything that is added is a registry
    mutation: kind command, operation write or delete. *)
Theorem session_sends_only_mutations :
  forall (rendered : string -> list Panel.card) (acts : list Session.interaction) (p : Panel.page),
    exists ms,
      Panel.sent (Session.session rendered acts p) = Panel.sent p ++ ms
      /\ Forall Session.is_mutation ms.
Proof.
  intros rendered acts p.
  destruct (session_steps rendered acts p) as (ms & S & F).
  exists ms. split; assumption.
Qed.

(** X16. The page does not deduplicate: a valid form stays filled in after
    it was accepted, so submitting it again sends the same write message a
    second time. *)
Theorem submitting_twice_sends_twice :
  forall (rendered : string -> list Panel.card) (draw1 draw2 : nat) (p : Panel.page),
    Panel.title (Panel.form p) <> ""%string ->
    let p' := Session.session rendered
                [Session.Handler (Panel.OkClick draw1);
                 Session.Handler (Panel.FormSubmit draw2)] p in
    let m := Panel.tagged (Panel.WriteOf (Panel.title (Panel.form p)) (Panel.description (Panel.form p))
                                         (Panel.command (Panel.form p)) (Panel.output (Panel.form p))) in
    Panel.new_messages p p' = [m; m].
Proof.
  intros rendered draw1 draw2 p H p' m. subst p' m.
  cbn [Session.session Session.interact Panel.handle].
  set (p1 := snd (Panel.validateModal rendered draw1 p)).
  assert (E1 := validateModal_titled_page rendered draw1 p H). fold p1 in E1.
  assert (F : Panel.form p1 = Panel.form p) by (rewrite E1; reflexivity).
  assert (H1 : Panel.title (Panel.form p1) <> ""%string) by (rewrite F; exact H).
  rewrite (validateModal_titled_page rendered draw2 p1 H1), F.
  cbn [Panel.sent]. rewrite E1. cbn [Panel.sent].
  unfold Panel.new_messages. rewrite <- !app_assoc. apply skipn_own_length.
Qed.

(** X17. Showing the modal clears the form, so a click on ok right after
    is rejected: nothing is sent, no card is added and the modal stays
    open. *)
Theorem ok_on_a_fresh_modal_sends_nothing :
  forall (rendered : string -> list Panel.card) (draw : nat) (p : Panel.page),
    let p' := Session.session rendered
                [Session.Handler Panel.AddCommandClick;
                 Session.Handler (Panel.OkClick draw)] p in
    Panel.new_messages p p' = []
    /\ Panel.cards p' = Panel.cards p
    /\ Panel.modal_active p' = true
    /\ fst (Panel.validateModal rendered draw (Panel.onAddCommandClick p)) = Some false.
Proof.
  intros rendered draw p p'. subst p'.
  cbn [Session.session Session.interact Panel.handle].
  rewrite (validateModal_empty_title rendered draw (Panel.onAddCommandClick p) eq_refl).
  unfold Panel.new_messages. cbn. rewrite skipn_all. repeat split.
Qed.

(** X19. The delete message carries what the card's title input shows when
    the button is clicked: after the user has edited the title of a card,
    deleting the card sends the edited title. *)
Theorem delete_sends_the_edited_title :
  forall (rendered : string -> list Panel.card) (i : nat) (header meta cmd out : string) (p : Panel.page),
    (i < List.length (Panel.cards p))%nat ->
    let p' := Session.session rendered
                [Session.TypeInCard i header meta cmd out;
                 Session.Handler (Panel.DeleteClick i)] p in
    Panel.new_messages p p' = [Panel.tagged (Panel.DeleteOf header)]
    /\ Panel.cards p' = Panel.remove_nth i (Panel.cards p).
Proof.
  intros rendered i header meta cmd out p L p'. subst p'.
  cbn [Session.session Session.interact Panel.handle].
  unfold Session.typeInCard.
  destruct (nth_error (Panel.cards p) i) as [c|] eqn:E.
  2:{ apply nth_error_None in E. lia. }
  unfold Panel.onDeleteClick. cbn [Panel.cards].
  rewrite (nth_error_replace_nth (Panel.cards p) i _ L).
  unfold Panel.sendDeleteCommand, Panel.sendCommand, Panel.send, Panel.new_messages.
  cbn [Panel.sent Panel.cards Panel.header_input].
  rewrite skipn_own_length, remove_replace_nth. split; reflexivity.
Qed.

Lemma submitting_twice_sends_twice_witness :
  List.length (Panel.new_messages filled_page
                 (Session.session blank_browser
                    [Session.Handler (Panel.OkClick 2); Session.Handler (Panel.FormSubmit 5)]
                    filled_page))
  = 2%nat.
Proof.
  rewrite (submitting_twice_sends_twice blank_browser 2%nat 5%nat filled_page
             ltac:(simpl; discriminate)).
  reflexivity.
Defined.

Lemma delete_sends_the_edited_title_witness :
  Panel.new_messages filled_page
    (Session.session blank_browser
       [Session.TypeInCard 0 "Salute" "" "hi" "hello";
        Session.Handler (Panel.DeleteClick 0)] filled_page)
  = [Panel.tagged (Panel.DeleteOf "Salute")].
Proof.
  refine (proj1 (delete_sends_the_edited_title blank_browser 0%nat
                   "Salute" "" "hi" "hello" filled_page _)).
  simpl. lia.
Defined.

Section PayloadFacts.

Import Panel Session.
Local Open Scope string_scope.

Lemma all_at_least_32_app (a b : string) :
  all_at_least_32 (a ++ b) = all_at_least_32 a && all_at_least_32 b.
Proof.
  unfold all_at_least_32.
  induction a as [|c a IH]; cbn [append list_ascii_of_string forallb]; [reflexivity|].
  rewrite IH. apply andb_assoc.
Qed.

Lemma escape_code_unit_at_least_32 (c : ascii) :
  all_at_least_32 (escape_code_unit c) = true.
Proof.
  destruct c as [[] [] [] [] [] [] [] []]; reflexivity.
Qed.

Lemma escape_code_units_at_least_32 (s : string) :
  all_at_least_32 (escape_code_units s) = true.
Proof.
  induction s as [|c s IH]; cbn [escape_code_units]; [reflexivity|].
  rewrite all_at_least_32_app, escape_code_unit_at_least_32, IH. reflexivity.
Qed.

Lemma QuoteJSONString_at_least_32 (s : string) :
  all_at_least_32 (QuoteJSONString s) = true.
Proof.
  unfold QuoteJSONString.
  change (String dquote (escape_code_units s ++ String dquote ""))
    with (String dquote "" ++ (escape_code_units s ++ String dquote "")).
  rewrite !all_at_least_32_app, escape_code_units_at_least_32. reflexivity.
Qed.

Lemma unescaped_quotes_escape_code_unit (c : ascii) (r : string) :
  unescaped_quotes false (escape_code_unit c ++ r) = unescaped_quotes false r.
Proof.
  destruct c as [[] [] [] [] [] [] [] []]; reflexivity.
Qed.

Lemma unescaped_quotes_escape_code_units (s r : string) :
  unescaped_quotes false (escape_code_units s ++ r) = unescaped_quotes false r.
Proof.
  induction s as [|c s IH]; cbn [escape_code_units]; [reflexivity|].
  rewrite string_app_assoc, unescaped_quotes_escape_code_unit. exact IH.
Qed.

Lemma unescaped_quotes_QuoteJSONString (s r : string) :
  unescaped_quotes false (QuoteJSONString s ++ r) = S (S (unescaped_quotes false r)).
Proof.
  unfold QuoteJSONString. cbn [append]. rewrite string_app_assoc.
  cbn [unescaped_quotes]. change (nat_of_ascii dquote) with 34%nat. cbn [Nat.eqb].
  rewrite unescaped_quotes_escape_code_units. reflexivity.
Qed.

End PayloadFacts.

(** X20. Whatever the four fields contain, every code unit of the data of
    a write message is 32 or more (no line break, tab or other code unit
    below 32 is sent raw), and, reading the text from the left with a
    backslash escaping the code unit after it, exactly sixteen double quotes
    are unescaped: the ones that delimit the four names and the four
    values. A double quote typed into a field is always escaped. *)
Theorem write_payload_is_one_clean_line :
  forall t d c o : string,
    Session.all_at_least_32 (Panel.serialized_fields t d c o) = true
    /\ Session.unescaped_quotes false (Panel.serialized_fields t d c o) = 16%nat.
Proof.
  intros t d c o.
  unfold Panel.serialized_fields, Panel.JSON_stringify, Panel.SerializeJSONProperty.
  cbn [map String.concat fst snd]. split.
  - rewrite !all_at_least_32_app, !QuoteJSONString_at_least_32. reflexivity.
  - rewrite !string_app_assoc.
    assert (Hb : forall r, Session.unescaped_quotes false ("{" ++ r) = Session.unescaped_quotes false r)
      by reflexivity.
    assert (Hc : forall r, Session.unescaped_quotes false (":" ++ r) = Session.unescaped_quotes false r)
      by reflexivity.
    assert (Hm : forall r, Session.unescaped_quotes false ("," ++ r) = Session.unescaped_quotes false r)
      by reflexivity.
    rewrite Hb.
    do 3 (rewrite unescaped_quotes_QuoteJSONString, Hc, unescaped_quotes_QuoteJSONString, Hm).
    rewrite unescaped_quotes_QuoteJSONString, Hc, unescaped_quotes_QuoteJSONString.
    reflexivity.
Qed.

(* ===================================================================== *)
(** ** The markup of a card *)
(* ===================================================================== *)

Section MarkupFacts.
Import Panel Session.
Local Open Scope string_scope.

Lemma quotes_app (a b : string) : quotes (a ++ b) = (quotes a + quotes b)%nat.
Proof.
  induction a as [|c a IH]; cbn [append quotes]; [reflexivity|].
  rewrite IH. apply Nat.add_assoc.
Qed.

Lemma quotes_concat (l : list string) :
  quotes (String.concat "" l) = list_sum (map quotes l).
Proof.
  induction l as [|x l IH]; [reflexivity|].
  destruct l as [|y l].
  - cbn. symmetry. apply Nat.add_0_r.
  - change (String.concat "" (x :: y :: l)) with (x ++ "" ++ String.concat "" (y :: l)).
    rewrite !quotes_app, IH. reflexivity.
Qed.
End MarkupFacts.

(** X22. The markup of a new card takes the colour and the four texts as
    they are: it holds the sixty double quotes of the template and every
    double quote of the texts, none escaped, so a double quote typed into a
    field ends the attribute it is spliced into. *)
Theorem card_markup_keeps_quotes_raw :
  forall color title description command output : string,
    Session.quotes (Panel.newcard color title description command output)
    = (60 + Session.quotes color + Session.quotes title + Session.quotes description
       + Session.quotes command + Session.quotes output)%nat.
Proof.
  intros color title description command output.
  unfold Panel.newcard. rewrite quotes_concat.
  cbn [map list_sum]. 
  change (Session.quotes Panel.dq) with 1%nat.
  change (Session.quotes Panel.lf) with 0%nat.
  repeat match goal with
         | |- context [Session.quotes (String ?a ?r)] =>
             let v := eval vm_compute in (Session.quotes (String a r)) in
             change (Session.quotes (String a r)) with v
         end.
  unfold list_sum. cbn [fold_right]. lia.
Qed.
